(** * Notes web application: the two variants of [main.go]

    The repository holds two versions of one small program, a note-taking
    web server over a single SQLite table
    [notes(id INTEGER PRIMARY KEY AUTOINCREMENT, title TEXT NOT NULL,
    content TEXT NOT NULL)]:

    - [src/main.go], the simple variant (modules named [Simple]);
    - [src/unnamed/part_000], the paginated variant (modules named
      [Paginated]), with the update handler and the method check.

    The handlers are embedded as pure functions.  The table is passed
    explicitly; what [net/http], [strconv], [database/sql] and the SQLite
    driver do is modelled in the modules [Go], [Http] and [Sql], which the two
    variants share. *)

From Stdlib Require Import ZArith List String Ascii Bool Lia DecimalString.
From Stdlib Require DecimalPos.
Import ListNotations.

Local Open Scope string_scope.
Local Open Scope list_scope.
Local Open Scope Z_scope.

(** ** Go: machine integers, [strconv], [fmt] *)

Module Go.

(** [int] and [int64] are 64-bit two's complement. *)
Definition maxInt : Z := 2 ^ 63 - 1.
Definition minInt : Z := - 2 ^ 63.

Definition wrap (z : Z) : Z := (z + 2 ^ 63) mod 2 ^ 64 - 2 ^ 63.

Definition digit (c : ascii) : option Z :=
  let n := Z.of_nat (nat_of_ascii c) in
  if (48 <=? n) && (n <=? 57) then Some (n - 48) else None.

Fixpoint digits (acc : Z) (s : string) : option Z :=
  match s with
  | EmptyString => Some acc
  | String c s' =>
      match digit c with
      | Some d => digits (10 * acc + d) s'
      | None => None
      end
  end.

(** [strconv.Atoi]: an optional sign, then at least one decimal digit, and
    a value that fits [int]; [None] stands for a non-nil error. *)
Definition Atoi (s : string) : option Z :=
  match s with
  | EmptyString => None
  | String c rest =>
      let '(neg, body) :=
        if Ascii.eqb c "-" then (true, rest)
        else if Ascii.eqb c "+" then (false, rest)
        else (false, s) in
      match body with
      | EmptyString => None
      | _ =>
          match digits 0 body with
          | None => None
          | Some n =>
              let v := if neg then - n else n in
              if (minInt <=? v) && (v <=? maxInt) then Some v else None
          end
      end
  end.

(** The verb [%d] of [fmt.Sprintf] on an [int64]. *)
Definition FormatInt (z : Z) : string := NilZero.string_of_int (Z.to_int z).

(** The values of type [error] the handlers tell apart. *)
Inductive error : Type :=
| ErrNoRows
| Err (msg : string).

Definition Error (e : error) : string :=
  match e with
  | ErrNoRows => "sql: no rows in result set"
  | Err msg => msg
  end.

Definition is_ErrNoRows (e : error) : bool :=
  match e with ErrNoRows => true | Err _ => false end.

End Go.

(** ** net/http: requests, responses *)

Module Http.

Definition StatusOK : Z := 200.
Definition StatusSeeOther : Z := 303.
Definition StatusBadRequest : Z := 400.
Definition StatusNotFound : Z := 404.
Definition StatusMethodNotAllowed : Z := 405.
Definition StatusInternalServerError : Z := 500.

Definition MethodGet : string := "GET".
Definition MethodPost : string := "POST".

(** [url.Values], in the order of the query string or of the body. *)
Definition Values : Type := list (string * string).

(** [Values.Get]: the first value of the key, the empty string without. *)
Fixpoint Get (key : string) (v : Values) : string :=
  match v with
  | [] => ""
  | (k, x) :: rest => if String.eqb k key then x else Get key rest
  end.

Record Request : Type := mkRequest {
  Method : string;
  URLQuery : Values;        (* r.URL.Query() *)
  BodyForm : Values         (* the url-encoded form of the body *)
}.

(** [ParseForm] reads the body for POST, PUT and PATCH only. *)
Definition PostForm (r : Request) : Values :=
  if String.eqb (Method r) "POST" || String.eqb (Method r) "PUT"
     || String.eqb (Method r) "PATCH"
  then BodyForm r else [].

(** [r.FormValue]: body parameters take precedence over the query string. *)
Definition FormValue (r : Request) (key : string) : string :=
  Get key (PostForm r ++ URLQuery r).

(** What a handler leaves in its [ResponseWriter]. [D] is the type of the
    data a template is executed with; template rendering itself is
    [html/template]'s, a page is kept as the template's name and its data.
    [Text msg] is the line that [fmt.Fprintln(w, msg)] writes. [Partial] is
    the beginning of a page whose template failed after it had written,
    followed by the line of the handler's [http.Error]. *)
Inductive Payload (D : Type) : Type :=
| Text (msg : string)
| Page (name : string) (data : D)
| Partial (name : string) (data : D) (msg : string)
| NoBody.
Arguments Text {D} msg.
Arguments Page {D} name data.
Arguments Partial {D} name data msg.
Arguments NoBody {D}.

Record Response (D : Type) : Type := mkResponse {
  Status : Z;
  ContentType : option string;
  Location : option string;
  Written : Payload D
}.
Arguments mkResponse {D}.
Arguments Status {D}.
Arguments ContentType {D}.
Arguments Location {D}.
Arguments Written {D}.

(** [http.Error(w, msg, code)]. *)
Definition Error {D} (msg : string) (code : Z) : Response D :=
  mkResponse code (Some "text/plain; charset=utf-8") None (Text msg).

(** [http.StatusText], for the codes of this module. *)
Definition StatusText (code : Z) : string :=
  if code =? 200 then "OK"
  else if code =? 303 then "See Other"
  else if code =? 400 then "Bad Request"
  else if code =? 404 then "Not Found"
  else if code =? 405 then "Method Not Allowed"
  else if code =? 500 then "Internal Server Error"
  else "".

Definition quote : string := String "034"%char EmptyString.
Definition newline : string := String "010"%char EmptyString.

(** [htmlEscape] of [net/http]. *)
Fixpoint htmlEscape (s : string) : string :=
  match s with
  | EmptyString => EmptyString
  | String c rest =>
      String.append
        (if Ascii.eqb c "&" then "&amp;"
         else if Ascii.eqb c "<" then "&lt;"
         else if Ascii.eqb c ">" then "&gt;"
         else if Ascii.eqb c "034" then "&#34;"
         else if Ascii.eqb c "'" then "&#39;"
         else String c EmptyString)
        (htmlEscape rest)
  end.

(** The body [http.Redirect] writes for a GET: an anchor on [url]. *)
Definition anchor (url : string) (code : Z) : string :=
  String.append "<a href="
    (String.append quote
       (String.append (htmlEscape url)
          (String.append quote
             (String.append ">"
                (String.append (StatusText code)
                   (String.append "</a>." newline)))))).

(** [http.Redirect(w, r, url, code)] on a writer whose Content-Type is not
    set, for a [url] that is an absolute path in clean form, with or without
    a query: the Location is [url]; a GET and a HEAD get the Content-Type of
    HTML, and a GET the anchor as its body. *)
Definition Redirect {D} (r : Request) (url : string) (code : Z)
  : Response D :=
  mkResponse code
    (if String.eqb (Method r) "GET" || String.eqb (Method r) "HEAD"
     then Some "text/html; charset=utf-8" else None)
    (Some url)
    (if String.eqb (Method r) "GET" then Text (anchor url code) else NoBody).

Definition is_client_error {D} (resp : Response D) : bool :=
  (400 <=? Status resp) && (Status resp <=? 499).

(** What a handler does with a request: it writes the response itself, or it
    hands the request to [http.ServeFile] (after it has set [ctype], if any),
    or it calls [http.Redirect] on an address that the client chose, from
    which [net/http] derives the Location header. *)
Inductive Answer (D : Type) : Type :=
| Wrote (resp : Response D)
| ServeFile (ctype : option string) (name : string)
| RedirectCall (url : string) (code : Z).
Arguments Wrote {D} resp.
Arguments ServeFile {D} ctype name.
Arguments RedirectCall {D} url code.

End Http.

(** ** What the handlers cannot see: the driver and the faults of one request *)

Module Env.

(** What a driver does with a statement that has more placeholders than
    arguments: bind NULL to the rest, or refuse the statement. *)
Inductive MissingArgs : Type :=
| BindNull
| Refuse.

(** The behaviour of the SQLite driver the handlers depend on and the
    repository does not fix. [numeric s] is the integer that the column
    affinity of [id] reads in the text [s] when [id = ?] is evaluated on a
    text argument, if it reads one. *)
Class Driver : Type := mkDriver {
  numeric : string -> option Z;
  missing_args : MissingArgs
}.

(** The failures the storage engine and the template engine may report
    during one request, whatever the table holds ([None]: no failure). *)
Record Faults : Type := mkFaults {
  exec_error : option string;            (* DB.Exec *)
  last_insert_id_error : option string;  (* Result.LastInsertId *)
  rows_affected_error : option string;   (* Result.RowsAffected *)
  query_error : option string;           (* DB.Query, DB.QueryRow *)
  scan_error : option string;            (* Rows.Scan, Row.Scan *)
  rows_error : option string;            (* Rows.Err *)
  template_error : option string;        (* Template.Execute *)
  template_wrote : bool     (* the failing template had written output *)
}.

Definition no_faults : Faults :=
  mkFaults None None None None None None None false.

End Env.

(** ** html/template *)

Module Template.
Import Http Env.

(** [a.Templates[name].Execute(w, data)] followed by the handler's
    [http.Error] when it fails; [ctype] is the Content-Type the handler has
    set before. A template writes as it executes: when it fails before any
    output, [http.Error] answers 500; when it fails after output, the status
    200 and the headers have gone out and [http.Error] only appends its
    line. *)
Definition Execute {D} (f : Faults) (name : string) (ctype : option string)
  (data : D) : Response D :=
  match template_error f with
  | Some e =>
      if template_wrote f
      then mkResponse StatusOK ctype None (Partial name data e)
      else Error e StatusInternalServerError
  | None => mkResponse StatusOK ctype None (Page name data)
  end.

(** [map[string]*template.Template]: a parsed template is kept as the file
    it was parsed from; the first entry of a name is the one in force. *)
Definition Templates : Type := list (string * string).

Definition set (name file : string) (m : Templates) : Templates :=
  (name, file) :: m.

Fixpoint lookup (name : string) (m : Templates) : option string :=
  match m with
  | [] => None
  | (k, file) :: rest => if String.eqb k name then Some file else lookup name rest
  end.

(** The loop of [initTemplates] over its table of names and files.
    [parse file] is the error of [template.ParseFiles(file)], if any. *)
Fixpoint load (parse : string -> option string)
  (templates : list (string * string)) (m : Templates) : Templates + string :=
  match templates with
  | [] => inl m
  | (name, file) :: rest =>
      match parse file with
      | Some err =>
          inr (String.append "ошибка загрузки "
                 (String.append file (String.append ": " err)))
      | None => load parse rest (set name file m)
      end
  end.

End Template.

(** ** database/sql over the table [notes] *)

Module Sql.
Import Go Env.

(** A bound argument. *)
Inductive Value : Type :=
| VNull
| VInt (z : Z)
| VText (s : string).

Record Row : Type := mkRow {
  row_id : Z;
  row_title : string;
  row_content : string
}.

(** The table in rowid order, and the counter that AUTOINCREMENT keeps in
    [sqlite_sequence]. *)
Record DB : Type := mkDB {
  notes : list Row;
  seq : Z
}.

Definition ids (db : DB) : list Z := map row_id (notes db).

(** The statements of the two programs. *)
Inductive Statement : Type :=
| SelectAll
| SelectPage
| SelectById
| Insert
| Update
| Delete.

Definition statement_of (sql : string) : option Statement :=
  if String.eqb sql "SELECT * FROM notes" then Some SelectAll
  else if String.eqb sql "SELECT id, title, content FROM notes LIMIT ? OFFSET ?"
  then Some SelectPage
  else if String.eqb sql "SELECT id, title, content FROM notes WHERE id = ?"
  then Some SelectById
  else if String.eqb sql "INSERT INTO notes (title, content) VALUES (?, ?)"
  then Some Insert
  else if String.eqb sql "UPDATE notes SET title = ?, content = ? WHERE id = ?"
  then Some Update
  else if String.eqb sql "DELETE FROM notes WHERE id = ?" then Some Delete
  else None.

(** The number of [?] in a statement. *)
Fixpoint placeholders (sql : string) : nat :=
  match sql with
  | EmptyString => O
  | String c rest =>
      if Ascii.eqb c "?" then S (placeholders rest) else placeholders rest
  end.

(** Arguments are bound by position. *)
Definition bind `{Driver} (sql : string) (args : list Value)
  : list Value + error :=
  let n := placeholders sql in
  if (List.length args <? n)%nat then
    match missing_args with
    | BindNull => inl (args ++ repeat VNull (n - List.length args))
    | Refuse =>
        inr (Err (String.append "missing argument with index "
                    (FormatInt (Z.of_nat (S (List.length args))))))
    end
  else inl (firstn n args).

(** [id = v] on a row: NULL equals nothing, a text is read through the
    column's affinity. *)
Definition id_eq `{Driver} (v : Value) (rowid : Z) : bool :=
  match v with
  | VNull => false
  | VInt z => z =? rowid
  | VText s =>
      match numeric s with
      | Some z => z =? rowid
      | None => false
      end
  end.

Definition matches `{Driver} (v : Value) (r : Row) : bool :=
  id_eq v (row_id r).

(** A value stored in a [TEXT NOT NULL] column. *)
Definition as_text (v : Value) : option string :=
  match v with
  | VNull => None
  | VInt z => Some (FormatInt z)
  | VText s => Some s
  end.

Definition max_rowid (rows : list Row) : Z :=
  fold_right (fun r m => Z.max (row_id r) m) 0 rows.

(** AUTOINCREMENT: one more than the largest rowid the table has ever
    held. *)
Definition next_rowid (db : DB) : Z :=
  Z.max (seq db) (max_rowid (notes db)) + 1.

(** What [Exec] hands back on success; the handlers read [last_insert_id]
    after an insert only. *)
Record Result : Type := mkResult {
  last_insert_id : Z;
  rows_affected : Z
}.

Definition insert (db : DB) (title content : Value) : DB * (Result + error) :=
  match as_text title, as_text content with
  | Some t, Some c =>
      let id := next_rowid db in
      if id <=? maxInt then
        (mkDB (notes db ++ [mkRow id t c]) id, inl (mkResult id 1))
      else (db, inr (Err "database or disk is full"))
  | _, _ => (db, inr (Err "NOT NULL constraint failed"))
  end.

Definition update `{Driver} (db : DB) (title content id : Value)
  : DB * (Result + error) :=
  match filter (matches id) (notes db) with
  | [] => (db, inl (mkResult 0 0))
  | hit =>
      match as_text title, as_text content with
      | Some t, Some c =>
          (mkDB (map (fun r => if matches id r then mkRow (row_id r) t c
                               else r) (notes db)) (seq db),
           inl (mkResult 0 (Z.of_nat (List.length hit))))
      | _, _ => (db, inr (Err "NOT NULL constraint failed"))
      end
  end.

Definition delete `{Driver} (db : DB) (id : Value) : DB * (Result + error) :=
  let kept := filter (fun r => negb (matches id r)) (notes db) in
  (mkDB kept (seq db),
   inl (mkResult 0 (Z.of_nat (List.length (notes db) - List.length kept)))).

(** [DB.Exec(sql, args...)]. *)
Definition Exec `{Driver} (f : Faults) (db : DB) (sql : string)
  (args : list Value) : DB * (Result + error) :=
  match exec_error f with
  | Some e => (db, inr (Err e))
  | None =>
      match bind sql args with
      | inr e => (db, inr e)
      | inl vs =>
          match statement_of sql, vs with
          | Some Insert, [t; c] => insert db t c
          | Some Update, [t; c; i] => update db t c i
          | Some Delete, [i] => delete db i
          | _, _ => (db, inr (Err "SQL logic error"))
          end
      end
  end.

(** [Result.LastInsertId] and [Result.RowsAffected] return a value and an
    error; a call that fails returns the zero value beside its error, as
    [database/sql]'s own results do. *)
Definition LastInsertId (f : Faults) (res : Result) : Z * option error :=
  match last_insert_id_error f with
  | Some e => (0, Some (Err e))
  | None => (last_insert_id res, None)
  end.

Definition RowsAffected (f : Faults) (res : Result) : Z * option error :=
  match rows_affected_error f with
  | Some e => (0, Some (Err e))
  | None => (rows_affected res, None)
  end.

(** [LIMIT l OFFSET o]: a negative limit is no limit, a negative offset is
    none. *)
Definition window (l o : Z) (rows : list Row) : list Row :=
  let rest := skipn (Z.to_nat o) rows in
  if l <? 0 then rest else firstn (Z.to_nat l) rest.

(** [DB.Query(sql, args...)]: the rows of the result set. *)
Definition Query `{Driver} (f : Faults) (db : DB) (sql : string)
  (args : list Value) : list Row + error :=
  match query_error f with
  | Some e => inr (Err e)
  | None =>
      match bind sql args with
      | inr e => inr e
      | inl vs =>
          match statement_of sql, vs with
          | Some SelectAll, [] => inl (notes db)
          | Some SelectPage, [VInt l; VInt o] => inl (window l o (notes db))
          | Some SelectById, [i] => inl (filter (matches i) (notes db))
          | _, _ => inr (Err "SQL logic error")
          end
      end
  end.

(** [Rows.Scan] into an integer (or string) and two strings. *)
Definition Scan (f : Faults) (r : Row) : Row + error :=
  match scan_error f with
  | Some e => inr (Err e)
  | None => inl r
  end.

(** [Rows.Err]. *)
Definition Rows_Err (f : Faults) : option error :=
  match rows_error f with
  | Some e => Some (Err e)
  | None => None
  end.

(** [DB.QueryRow(sql, args...).Scan(...)]: the first row of the result. *)
Definition QueryRow_Scan `{Driver} (f : Faults) (db : DB) (sql : string)
  (args : list Value) : Row + error :=
  match Query f db sql args with
  | inr e => inr e
  | inl [] => inr ErrNoRows
  | inl (r :: _) => Scan f r
  end.

(** The primary key: no two rows share an id. *)
Definition wf (db : DB) : Prop := NoDup (ids db).

(** No row has an id above the counter of AUTOINCREMENT. *)
Definition bounded (db : DB) : Prop :=
  Forall (fun r => row_id r <= seq db) (notes db).

(** A note whose title and content are both non-empty. *)
Definition filled (r : Row) : Prop := row_title r <> "" /\ row_content r <> "".

(** The three ways in which a handler leaves the table: as it was, with one
    filled note appended under the next id, or without the rows of one id. *)
Inductive writes `{Driver} (db : DB) : DB -> Prop :=
| writes_nothing : writes db db
| writes_insert (t c : string) :
    t <> "" -> c <> "" ->
    writes db (mkDB (notes db ++ [mkRow (next_rowid db) t c]) (next_rowid db))
| writes_delete (v : Value) :
    writes db (mkDB (filter (fun r => negb (matches v r)) (notes db)) (seq db)).

(** Any number of such steps, one after the other. *)
Inductive reaches `{Driver} : DB -> DB -> Prop :=
| reaches_here (db : DB) : reaches db db
| reaches_on (db db1 db2 : DB) :
    writes db db1 -> reaches db1 db2 -> reaches db db2.

End Sql.

(** ** The simple variant: [src/main.go] *)

Module Simple.
Import Go Http Env Template Sql.

Record Note : Type := mkNote {
  Id : string;
  Title : string;
  Content : string
}.

Inductive PageData : Type :=
| NotesData (notes : list Note)
| NoteData (note : Note).

(** [Scan(&n.Id, &n.Title, &n.Content)]: the integer column is converted
    to its decimal text. *)
Definition note_of_row (r : Row) : Note :=
  mkNote (FormatInt (row_id r)) (row_title r) (row_content r).

(** The loop [for rows.Next() { ... notes = append(notes, n) }]. *)
Fixpoint scan_rows (f : Faults) (rows : list Row) (notes : list Note)
  : list Note + error :=
  match rows with
  | [] => inl notes
  | r :: rest =>
      match Scan f r with
      | inr err => inr err
      | inl n => scan_rows f rest (notes ++ [note_of_row n])
      end
  end.

Definition mainPage `{Driver} (f : Faults) (db : DB) (_ : Request)
  : Response PageData :=
  match Query f db "SELECT * FROM notes" [] with
  | inr err => Error (Go.Error err) StatusInternalServerError
  | inl rows =>
      match scan_rows f rows [] with
      | inr err => Error (Go.Error err) StatusInternalServerError
      | inl notes =>
          match Rows_Err f with
          | Some err => Error (Go.Error err) StatusInternalServerError
          | None => Execute f "index" None (NotesData notes)
          end
      end
  end.

Definition noteDetailPage `{Driver} (f : Faults) (db : DB) (r : Request)
  : Response PageData :=
  let id := Get "id" (URLQuery r) in
  if String.eqb id "" then Error "ID is required" StatusBadRequest
  else
    match QueryRow_Scan f db
            "SELECT id, title, content FROM notes WHERE id = ?" [VText id]
    with
    | inr err =>
        if is_ErrNoRows err then Error "Note not found" StatusNotFound
        else Error (Go.Error err) StatusInternalServerError
    | inl row => Execute f "details" None (NoteData (note_of_row row))
    end.

Definition createNoteHandler `{Driver} (f : Faults) (db : DB) (r : Request)
  : DB * Response PageData :=
  let title := FormValue r "title" in
  let content := FormValue r "content" in
  if String.eqb title "" || String.eqb content "" then
    (db, Error "Title and content are required" StatusBadRequest)
  else
    match Exec f db "INSERT INTO notes (title, content) VALUES (?, ?)"
            [VText title; VText content]
    with
    | (db', inr err) => (db', Error (Go.Error err) StatusInternalServerError)
    | (db', inl result) =>
        match LastInsertId f result with
        | (_, Some err) =>
            (db', Error (Go.Error err) StatusInternalServerError)
        | (id, None) =>
            (db', Redirect r (String.append "/note?id=" (FormatInt id))
                    StatusSeeOther)
        end
    end.

Definition removeNoteHandler `{Driver} (f : Faults) (db : DB) (r : Request)
  : DB * Response PageData :=
  let id := Get "id" (URLQuery r) in
  if String.eqb id "" then (db, Error "ID is required" StatusBadRequest)
  else
    match Exec f db "DELETE FROM notes WHERE id = ?" [VText id] with
    | (db', inr err) => (db', Error (Go.Error err) StatusInternalServerError)
    | (db', inl res) =>
        let '(rowsAffected, _) := RowsAffected f res in
        if rowsAffected =? 0 then
          (db', Error "Note not found" StatusNotFound)
        else (db', Redirect r "/" StatusSeeOther)
    end.

(** The requests that write to the table, and a sequence of them. *)
Inductive Call : Type :=
| Create
| Remove.

Definition handle `{Driver} (c : Call) (f : Faults) (db : DB) (r : Request)
  : DB * Response PageData :=
  match c with
  | Create => createNoteHandler f db r
  | Remove => removeNoteHandler f db r
  end.

Fixpoint run `{Driver} (calls : list (Call * Faults * Request)) (db : DB)
  : DB :=
  match calls with
  | [] => db
  | (c, f, r) :: rest => run rest (fst (handle c f db r))
  end.

Definition initTemplates (parse : string -> option string)
  : Templates + string :=
  load parse
    [("index", "templates/index.html");
     ("add", "templates/add.html");
     ("details", "templates/details.html")] [].

Definition addPage (_ : Request) : Answer PageData :=
  ServeFile None "templates/add.html".

(** The routes that [main] registers, on the path of a request in its
    canonical form: the pattern [/] takes every path that no other pattern
    names. *)
Definition serve `{Driver} (path : string) (f : Faults) (db : DB)
  (r : Request) : DB * Answer PageData :=
  if String.eqb path "/add" then (db, addPage r)
  else if String.eqb path "/create" then
    let '(db', resp) := createNoteHandler f db r in (db', Wrote resp)
  else if String.eqb path "/note" then (db, Wrote (noteDetailPage f db r))
  else if String.eqb path "/remove" then
    let '(db', resp) := removeNoteHandler f db r in (db', Wrote resp)
  else (db, Wrote (mainPage f db r)).

(** The table after a sequence of requests. *)
Fixpoint serve_all `{Driver} (reqs : list (string * Faults * Request))
  (db : DB) : DB :=
  match reqs with
  | [] => db
  | (path, f, r) :: rest => serve_all rest (fst (serve path f db r))
  end.

End Simple.

(** ** The paginated variant: [src/unnamed/part_000] *)

Module Paginated.
Import Go Http Env Template Sql.

Record Note : Type := mkNote {
  Id : Z;
  Title : string;
  Content : string
}.

Record IndexPageData : Type := mkIndexPageData {
  Notes : list Note;
  Page : Z;
  HasNext : bool;
  HasPrev : bool;
  NextPage : Z;
  PrevPage : Z
}.

Inductive PageData : Type :=
| IndexData (data : IndexPageData)
| NoteData (note : Note).

Definition html : option string := Some "text/html; charset=utf-8".

Definition note_of_row (r : Row) : Note :=
  mkNote (row_id r) (row_title r) (row_content r).

(** The loop [for rows.Next() { ... notes = append(notes, n) }]. *)
Fixpoint scan_rows (f : Faults) (rows : list Row) (notes : list Note)
  : list Note + error :=
  match rows with
  | [] => inl notes
  | r :: rest =>
      match Scan f r with
      | inr err => inr err
      | inl n => scan_rows f rest (notes ++ [note_of_row n])
      end
  end.

(** [page, err := strconv.Atoi(pageStr); if err != nil || page < 1 { page = 1 }]. *)
Definition page_of (r : Request) : Z :=
  let pageStr := Get "page" (URLQuery r) in
  match Atoi pageStr with
  | Some page => if page <? 1 then 1 else page
  | None => 1
  end.

Definition limit : Z := 1.

Definition mainPage `{Driver} (f : Faults) (db : DB) (r : Request)
  : Response PageData :=
  let page := page_of r in
  let offset := wrap ((page - 1) * limit) in
  match Query f db "SELECT id, title, content FROM notes LIMIT ? OFFSET ?"
          [VInt (wrap (limit + 1)); VInt offset]
  with
  | inr err => Error (Go.Error err) StatusInternalServerError
  | inl rows =>
      match scan_rows f rows [] with
      | inr err => Error (Go.Error err) StatusInternalServerError
      | inl notes =>
          let '(hasNext, notes) :=
            if Z.of_nat (List.length notes) >? limit
            then (true, firstn (Z.to_nat limit) notes)
            else (false, notes) in
          match Rows_Err f with
          | Some err => Error (Go.Error err) StatusInternalServerError
          | None =>
              let data := {|
                Notes := notes;
                Page := page;
                HasPrev := page >? 1;
                HasNext := hasNext;
                PrevPage := wrap (page - 1);
                NextPage := wrap (page + 1)
              |} in
              Execute f "index" html (IndexData data)
          end
      end
  end.

Definition updatePage `{Driver} (f : Faults) (db : DB) (r : Request)
  : Response PageData :=
  let id := Get "id" (URLQuery r) in
  if String.eqb id "" then Error "ID is required" StatusBadRequest
  else
    match QueryRow_Scan f db
            "SELECT id, title, content FROM notes WHERE id = ?" [VText id]
    with
    | inr err =>
        if is_ErrNoRows err then Error "Note not found" StatusNotFound
        else Error (Go.Error err) StatusInternalServerError
    | inl row => Execute f "update" html (NoteData (note_of_row row))
    end.

Definition detailPage `{Driver} (f : Faults) (db : DB) (r : Request)
  : Response PageData :=
  let id := Get "id" (URLQuery r) in
  if String.eqb id "" then Error "ID is required" StatusBadRequest
  else
    match QueryRow_Scan f db
            "SELECT id, title, content FROM notes WHERE id = ?" [VText id]
    with
    | inr err =>
        if is_ErrNoRows err then Error "Note not found" StatusNotFound
        else Error (Go.Error err) StatusInternalServerError
    | inl row => Execute f "details" html (NoteData (note_of_row row))
    end.

Definition createNoteHandler `{Driver} (f : Faults) (db : DB) (r : Request)
  : DB * Response PageData :=
  if negb (String.eqb (Method r) MethodPost) then
    (db, Error "Method not allowed" StatusMethodNotAllowed)
  else
    let title := FormValue r "title" in
    let content := FormValue r "content" in
    if String.eqb title "" || String.eqb content "" then
      (db, Error "Title and content are required" StatusBadRequest)
    else
      match Exec f db "INSERT INTO notes (title, content) VALUES (?, ?)"
              [VText title; VText content]
      with
      | (db', inr err) =>
          (db', Error (Go.Error err) StatusInternalServerError)
      | (db', inl result) =>
          match LastInsertId f result with
          | (_, Some err) =>
              (db', Error (Go.Error err) StatusInternalServerError)
          | (id, None) =>
              (db', Redirect r (String.append "/note?id=" (FormatInt id))
                      StatusSeeOther)
          end
      end.

(** The statement of the update handler and the arguments it passes. *)
Definition update_statement : string :=
  "UPDATE notes SET title = ?, content = ? WHERE id = ?".

Definition update_arguments (id : string) : list Value := [VText id].

Definition updateNoteHandler `{Driver} (f : Faults) (db : DB) (r : Request)
  : DB * Response PageData :=
  let id := Get "id" (URLQuery r) in
  if String.eqb id "" then (db, Error "ID is required" StatusBadRequest)
  else
    match Exec f db update_statement (update_arguments id) with
    | (db', inr err) => (db', Error (Go.Error err) StatusInternalServerError)
    | (db', inl res) =>
        let '(rowsAffected, _) := RowsAffected f res in
        if rowsAffected =? 0 then
          (db', Error "Note not found" StatusNotFound)
        else (db', Redirect r "/" StatusSeeOther)
    end.

Definition removeNoteHandler `{Driver} (f : Faults) (db : DB) (r : Request)
  : DB * Response PageData :=
  let id := Get "id" (URLQuery r) in
  if String.eqb id "" then (db, Error "ID is required" StatusBadRequest)
  else
    match Exec f db "DELETE FROM notes WHERE id = ?" [VText id] with
    | (db', inr err) => (db', Error (Go.Error err) StatusInternalServerError)
    | (db', inl res) =>
        let '(rowsAffected, _) := RowsAffected f res in
        if rowsAffected =? 0 then
          (db', Error "Note not found" StatusNotFound)
        else (db', Redirect r "/" StatusSeeOther)
    end.

(** The requests that write to the table, and a sequence of them. *)
Inductive Call : Type :=
| Create
| Update
| Remove.

Definition handle `{Driver} (c : Call) (f : Faults) (db : DB) (r : Request)
  : DB * Response PageData :=
  match c with
  | Create => createNoteHandler f db r
  | Update => updateNoteHandler f db r
  | Remove => removeNoteHandler f db r
  end.

Fixpoint run `{Driver} (calls : list (Call * Faults * Request)) (db : DB)
  : DB :=
  match calls with
  | [] => db
  | (c, f, r) :: rest => run rest (fst (handle c f db r))
  end.

Definition initTemplates (parse : string -> option string)
  : Templates + string :=
  load parse
    [("index", "templates/index.html");
     ("add", "templates/add.html");
     ("details", "templates/details.html");
     ("update", "templates/update.html")] [].

Definition addPage (_ : Request) : Answer PageData :=
  ServeFile html "templates/add.html".

Definition backHandler (r : Request) : Answer PageData :=
  let returnURL := Get "return" (URLQuery r) in
  let returnURL := if String.eqb returnURL "" then "/" else returnURL in
  RedirectCall returnURL StatusSeeOther.

(** The routes that [main] registers, on the path of a request in its
    canonical form: the pattern [/] takes every path that no other pattern
    names. *)
Definition serve `{Driver} (path : string) (f : Faults) (db : DB)
  (r : Request) : DB * Answer PageData :=
  if String.eqb path "/new-note" then (db, addPage r)
  else if String.eqb path "/update-note" then (db, Wrote (updatePage f db r))
  else if String.eqb path "/note" then (db, Wrote (detailPage f db r))
  else if String.eqb path "/back" then (db, backHandler r)
  else if String.eqb path "/create" then
    let '(db', resp) := createNoteHandler f db r in (db', Wrote resp)
  else if String.eqb path "/update" then
    let '(db', resp) := updateNoteHandler f db r in (db', Wrote resp)
  else if String.eqb path "/remove" then
    let '(db', resp) := removeNoteHandler f db r in (db', Wrote resp)
  else (db, Wrote (mainPage f db r)).

(** The table after a sequence of requests. *)
Fixpoint serve_all `{Driver} (reqs : list (string * Faults * Request))
  (db : DB) : DB :=
  match reqs with
  | [] => db
  | (path, f, r) :: rest => serve_all rest (fst (serve path f db r))
  end.

End Paginated.

(** ** Two drivers to run the handlers with *)

Module Drivers.
Import Go Env.

(** Reads decimal integers; refuses a statement with a missing argument. *)
Definition strict : Driver := mkDriver Atoi Refuse.

(** Reads decimal integers; binds NULL to a missing argument. *)
Definition lenient : Driver := mkDriver Atoi BindNull.

End Drivers.

(** ** Facts about the model of Go and of the storage *)

Module Facts.
Import Go Http Env Template Sql.

Lemma wrap_id (z : Z) : minInt <= z <= maxInt -> wrap z = z.
Proof.
  unfold wrap, minInt, maxInt. intros Hz.
  rewrite Z.mod_small; lia.
Qed.

Lemma Atoi_range (s : string) (n : Z) :
  Atoi s = Some n -> minInt <= n <= maxInt.
Proof.
  unfold Atoi. destruct s as [|c rest]; [discriminate|].
  destruct (if Ascii.eqb c "-" then (true, rest)
            else if Ascii.eqb c "+" then (false, rest)
            else (false, String c rest)) as [neg body].
  destruct body as [|c' body']; [discriminate|].
  destruct (digits 0 (String c' body')) as [m|]; [|discriminate].
  destruct ((minInt <=? (if neg then - m else m))
            && ((if neg then - m else m) <=? maxInt)) eqn:Hr; [|discriminate].
  intros [= <-]. apply andb_true_iff in Hr as [H1 H2]. lia.
Qed.

Lemma FormatInt_nonempty (z : Z) : FormatInt z <> "".
Proof.
  unfold FormatInt. destruct (Z.to_int z) as [d|d]; destruct d; discriminate.
Qed.

Lemma db_eta (db : DB) : mkDB (notes db) (seq db) = db.
Proof. destruct db; reflexivity. Qed.

Lemma max_rowid_ge (rows : list Row) (r : Row) :
  In r rows -> row_id r <= max_rowid rows.
Proof.
  induction rows as [|x rows IH]; simpl; [tauto|].
  intros [-> | Hin]; [lia|]. specialize (IH Hin). lia.
Qed.

Lemma next_rowid_fresh (db : DB) : ~ In (next_rowid db) (ids db).
Proof.
  unfold ids, next_rowid. intros Hin.
  apply in_map_iff in Hin as [r [Hr Hin]].
  apply max_rowid_ge in Hin. lia.
Qed.

Section WithDriver.
Context `{Driver}.

Lemma matches_same_id (v : Value) (r r' : Row) :
  matches v r = true -> matches v r' = true -> row_id r = row_id r'.
Proof.
  unfold matches, id_eq. destruct v as [|z|s]; [discriminate| |].
  - rewrite !Z.eqb_eq. congruence.
  - destruct (numeric s); [|discriminate].
    rewrite !Z.eqb_eq. congruence.
Qed.

Lemma matches_id (v : Value) (r r' : Row) :
  row_id r = row_id r' -> matches v r = matches v r'.
Proof. unfold matches. intros ->. reflexivity. Qed.

Lemma filter_none {A} (p : A -> bool) (l : list A) :
  (forall x, In x l -> p x = false) -> filter p l = [].
Proof.
  induction l as [|x l IH]; simpl; intros Hl; [reflexivity|].
  rewrite (Hl x (or_introl eq_refl)). apply IH. intros y Hy.
  apply Hl. now right.
Qed.

Lemma filter_all {A} (p : A -> bool) (l : list A) :
  (forall x, In x l -> p x = true) -> filter p l = l.
Proof.
  induction l as [|x l IH]; simpl; intros Hl; [reflexivity|].
  rewrite (Hl x (or_introl eq_refl)). f_equal. apply IH. intros y Hy.
  apply Hl. now right.
Qed.

(** Under the primary key a row is found by its id among the others. *)
Lemma split_at_match (v : Value) (rows : list Row) (r : Row) :
  NoDup (map row_id rows) -> In r rows -> matches v r = true ->
  exists l1 l2,
    rows = l1 ++ r :: l2
    /\ (forall x, In x (l1 ++ l2) -> matches v x = false).
Proof.
  intros Hnd Hin Hm.
  apply in_split in Hin as [l1 [l2 ->]]. exists l1, l2. split; [reflexivity|].
  intros x Hx.
  destruct (matches v x) eqn:Hmx; [exfalso|reflexivity].
  pose proof (matches_same_id v r x Hm Hmx) as Hid.
  rewrite map_app in Hnd. simpl in Hnd.
  apply NoDup_remove_2 in Hnd. apply Hnd.
  rewrite <- map_app, Hid. now apply in_map.
Qed.

Lemma filter_single (v : Value) (l1 l2 : list Row) (r : Row) :
  (forall x, In x (l1 ++ l2) -> matches v x = false) ->
  matches v r = true ->
  filter (matches v) (l1 ++ r :: l2) = [r]
  /\ filter (fun x => negb (matches v x)) (l1 ++ r :: l2) = l1 ++ l2.
Proof.
  intros Hno Hm.
  assert (H1 : forall x, In x l1 -> matches v x = false)
    by (intros x Hx; apply Hno, in_or_app; now left).
  assert (H2 : forall x, In x l2 -> matches v x = false)
    by (intros x Hx; apply Hno, in_or_app; now right).
  rewrite !filter_app. simpl. rewrite Hm. simpl.
  rewrite (filter_none (matches v) l1 H1), (filter_none (matches v) l2 H2).
  split; [reflexivity|].
  rewrite (filter_all (fun x => negb (matches v x)) l1),
          (filter_all (fun x => negb (matches v x)) l2); [reflexivity| |].
  - intros x Hx. now rewrite H2.
  - intros x Hx. now rewrite H1.
Qed.

Lemma Exec_insert (f : Faults) (db : DB) (t c : Value) :
  exec_error f = None ->
  Exec f db "INSERT INTO notes (title, content) VALUES (?, ?)" [t; c]
  = insert db t c.
Proof. intros Hf. unfold Exec. rewrite Hf. reflexivity. Qed.

Lemma Exec_delete (f : Faults) (db : DB) (v : Value) :
  exec_error f = None ->
  Exec f db "DELETE FROM notes WHERE id = ?" [v] = delete db v.
Proof. intros Hf. unfold Exec. rewrite Hf. reflexivity. Qed.

Lemma Exec_fault (f : Faults) (db : DB) (sql : string) (args : list Value)
  (e : string) :
  exec_error f = Some e -> Exec f db sql args = (db, inr (Err e)).
Proof. intros Hf. unfold Exec. rewrite Hf. reflexivity. Qed.

Lemma Query_by_id (f : Faults) (db : DB) (v : Value) :
  query_error f = None ->
  Query f db "SELECT id, title, content FROM notes WHERE id = ?" [v]
  = inl (filter (matches v) (notes db)).
Proof. intros Hf. unfold Query. rewrite Hf. reflexivity. Qed.

Lemma Query_page (f : Faults) (db : DB) (l o : Z) :
  query_error f = None ->
  Query f db "SELECT id, title, content FROM notes LIMIT ? OFFSET ?"
    [VInt l; VInt o]
  = inl (window l o (notes db)).
Proof. intros Hf. unfold Query. rewrite Hf. reflexivity. Qed.

End WithDriver.

End Facts.

(** ** The claims *)

Import Go Http Env Template Sql.

(** *** Listing (paginated variant) *)

Lemma Paginated_scan_rows (f : Faults) (rows : list Row)
  (acc : list Paginated.Note) :
  scan_error f = None ->
  Paginated.scan_rows f rows acc = inl (acc ++ map Paginated.note_of_row rows).
Proof.
  intros Hf. revert acc.
  induction rows as [|r rows IH]; intros acc; simpl.
  - now rewrite app_nil_r.
  - unfold Scan. rewrite Hf, IH, <- app_assoc. reflexivity.
Qed.

Lemma page_of_range (r : Request) : 1 <= Paginated.page_of r <= maxInt.
Proof.
  unfold Paginated.page_of.
  destruct (Atoi (Get "page" (URLQuery r))) as [n|] eqn:Hn.
  - apply Facts.Atoi_range in Hn. unfold maxInt in *.
    destruct (n <? 1) eqn:Hlt; [lia|]. apply Z.ltb_ge in Hlt. lia.
  - unfold maxInt. lia.
Qed.

Lemma window_length_le (l o : Z) (rows : list Row) :
  0 <= l -> (List.length (window l o rows) <= Z.to_nat l)%nat.
Proof.
  intros Hl. unfold window.
  destruct (l <? 0) eqn:Hneg; [apply Z.ltb_lt in Hneg; lia|].
  apply firstn_le_length.
Qed.

(** The page the listing handler serves when neither the storage nor the
    template fails. *)
Lemma mainPage_served (D : Driver) (f : Faults) (db : DB) (r : Request) :
  query_error f = None -> scan_error f = None ->
  rows_error f = None -> template_error f = None ->
  let page := Paginated.page_of r in
  let fetched :=
    window (Paginated.limit + 1) ((page - 1) * Paginated.limit) (notes db) in
  Paginated.mainPage f db r
  = mkResponse StatusOK Paginated.html None
      (Page "index"
         (Paginated.IndexData
            (Paginated.mkIndexPageData
               (map Paginated.note_of_row (firstn 1 fetched))
               page
               (1 <? List.length fetched)%nat
               (page >? 1)
               (wrap (page + 1))
               (page - 1)))).
Proof.
  intros Hq Hs Hr Ht page fetched.
  pose proof (page_of_range r) as Hp. fold page in Hp.
  unfold Paginated.mainPage. fold page.
  assert (Hoff : wrap ((page - 1) * Paginated.limit)
                 = (page - 1) * Paginated.limit).
  { apply Facts.wrap_id. unfold Paginated.limit, minInt, maxInt in *. lia. }
  assert (Hlim : wrap (Paginated.limit + 1) = Paginated.limit + 1)
    by reflexivity.
  rewrite Hoff, Hlim, (Facts.Query_page f db _ _ Hq). fold fetched.
  rewrite (Paginated_scan_rows f fetched [] Hs). simpl app.
  unfold Rows_Err. rewrite Hr. unfold Execute. rewrite Ht.
  rewrite length_map.
  assert (Hlen : (List.length fetched <= 2)%nat).
  { subst fetched. apply (window_length_le 2). lia. }
  assert (Hprev : wrap (page - 1) = page - 1).
  { apply Facts.wrap_id. unfold minInt, maxInt in *. lia. }
  rewrite Hprev.
  unfold Paginated.limit.
  destruct (Z.of_nat (List.length fetched) >? 1) eqn:Hgt.
  - assert (Hn : (1 <? List.length fetched)%nat = true).
    { apply Nat.ltb_lt. apply Z.gtb_lt in Hgt. lia. }
    rewrite Hn. change (Z.to_nat 1) with 1%nat.
    rewrite firstn_map. reflexivity.
  - assert (Hn : (1 <? List.length fetched)%nat = false).
    { apply Nat.ltb_ge. rewrite Z.gtb_ltb in Hgt. apply Z.ltb_ge in Hgt. lia. }
    rewrite Hn. rewrite (firstn_all2 (n := 1) fetched).
    + reflexivity.
    + apply Nat.ltb_ge in Hn. exact Hn.
Qed.



(** *** The update statement (paginated variant) *)

(** The statement of the update handler with the single argument the handler
    passes: a driver that refuses it reports an error, a driver that binds
    NULL to the rest compares [id] with NULL and touches no row. *)
Lemma Exec_update_one_argument (D : Driver) (f : Faults) (db : DB)
  (id : string) :
  let out :=
    Exec f db Paginated.update_statement (Paginated.update_arguments id) in
  fst out = db
  /\ (snd out = inl (mkResult 0 0) \/ exists e, snd out = inr e).
Proof.
  unfold Exec. destruct (exec_error f) as [e|].
  { simpl. split; [reflexivity|]. right. eexists. reflexivity. }
  unfold bind.
  change (placeholders Paginated.update_statement) with 3%nat.
  change (Paginated.update_arguments id) with [VText id].
  change (List.length [VText id] <? 3)%nat with true. cbv iota.
  destruct missing_args.
  - change ([VText id] ++ repeat VNull (3 - List.length [VText id]))
      with [VText id; VNull; VNull].
    change (statement_of Paginated.update_statement) with (Some Update).
    cbv iota. unfold update.
    rewrite (Facts.filter_none (matches VNull) (notes db))
      by (intros; reflexivity).
    simpl. split; [reflexivity|]. now left.
  - simpl. split; [reflexivity|]. right. eexists. reflexivity.
Qed.

(** C2 as the specification states it fails on the count: the statement of
    the update handler has three placeholders, not two. *)
Lemma C2_counterexample :
  Paginated.update_statement
  = "UPDATE notes SET title = ?, content = ? WHERE id = ?"
  /\ placeholders Paginated.update_statement = 3%nat
  /\ ~ placeholders Paginated.update_statement = 2%nat.
Proof. repeat split. discriminate. Qed.

(** C2 (amended). The update handler of the paginated variant binds the one
    argument [id] to a statement of three placeholders. For every request the
    statement reports an error or affects no row; the table is left as it
    was, and the handler answers 400, 404 or 500, never with the redirect. *)
Theorem C2_update_changes_nothing (D : Driver) (f : Faults) (db : DB)
  (r : Request) :
  let id := Get "id" (URLQuery r) in
  let out :=
    Exec f db Paginated.update_statement (Paginated.update_arguments id) in
  placeholders Paginated.update_statement = 3%nat
  /\ Paginated.update_arguments id = [VText id]
  /\ fst out = db
  /\ (snd out = inl (mkResult 0 0) \/ exists e, snd out = inr e)
  /\ fst (Paginated.updateNoteHandler f db r) = db
  /\ In (Status (snd (Paginated.updateNoteHandler f db r)))
       [StatusBadRequest; StatusNotFound; StatusInternalServerError]
  /\ Location (snd (Paginated.updateNoteHandler f db r)) = None.
Proof.
  intros id out.
  destruct (Exec_update_one_argument D f db id) as [Hdb Hres].
  fold out in Hdb, Hres.
  split; [reflexivity|]. split; [reflexivity|].
  split; [exact Hdb|]. split; [exact Hres|].
  unfold Paginated.updateNoteHandler. fold id.
  destruct (String.eqb id "").
  { simpl. tauto. }
  fold out. destruct out as [db' [res|err]]; simpl in Hdb, Hres; subst db'.
  - destruct Hres as [[= ->] | [e He]]; [|discriminate].
    unfold RowsAffected. destruct (rows_affected_error f); simpl; tauto.
  - simpl. tauto.
Qed.

(** A statement with all three arguments bound does change the row. *)
Example update_fully_bound :
  fst (Exec (H := Drivers.strict) no_faults
         (mkDB [mkRow 1 "a" "A"; mkRow 2 "b" "B"] 2)
         Paginated.update_statement [VText "t"; VText "c"; VText "2"])
  = mkDB [mkRow 1 "a" "A"; mkRow 2 "t" "c"] 2.
Proof. reflexivity. Qed.

(** *** The discarded error of [RowsAffected] *)

Lemma id_required (id : string) : id <> "" -> String.eqb id "" = false.
Proof. intros Hid. now apply String.eqb_neq. Qed.

(** C10. The remove handler of both variants and the update handler of the
    paginated variant drop the error of [RowsAffected]: when the statement
    has run without error and [RowsAffected] reports one, the count read is
    zero and the answer is 404, not 500. *)
Theorem C10_rows_affected_error_dropped (D : Driver) (f : Faults) (db : DB)
  (r : Request) (e : string) :
  Get "id" (URLQuery r) <> "" ->
  rows_affected_error f = Some e ->
  let id := Get "id" (URLQuery r) in
  (forall db' res,
      Exec f db "DELETE FROM notes WHERE id = ?" [VText id] = (db', inl res) ->
      RowsAffected f res = (0, Some (Err e))
      /\ Simple.removeNoteHandler f db r
         = (db', Error "Note not found" StatusNotFound)
      /\ Paginated.removeNoteHandler f db r
         = (db', Error "Note not found" StatusNotFound))
  /\ (forall db' res,
         Exec f db Paginated.update_statement (Paginated.update_arguments id)
         = (db', inl res) ->
         RowsAffected f res = (0, Some (Err e))
         /\ Paginated.updateNoteHandler f db r
            = (db', Error "Note not found" StatusNotFound)).
Proof.
  intros Hid He id. apply id_required in Hid. fold id in Hid.
  assert (Hra : forall res, RowsAffected f res = (0, Some (Err e))).
  { intros res. unfold RowsAffected. now rewrite He. }
  split; intros db' res Hexec; (split; [apply Hra|]).
  - unfold Simple.removeNoteHandler, Paginated.removeNoteHandler.
    fold id. rewrite Hid, Hexec, Hra. split; reflexivity.
  - unfold Paginated.updateNoteHandler.
    fold id. rewrite Hid, Hexec, Hra. reflexivity.
Qed.

(** A delete that removes a row and an update that touches none, both
    answered 404 because [RowsAffected] failed. *)
Lemma C10_rows_affected_error_dropped_witness :
  let f := mkFaults None None (Some "no count") None None None None false in
  let db := mkDB [mkRow 1 "a" "A"; mkRow 2 "b" "B"] 2 in
  let r := mkRequest MethodGet [("id", "2")] [] in
  Simple.removeNoteHandler (H := Drivers.lenient) f db r
  = (mkDB [mkRow 1 "a" "A"] 2, Error "Note not found" StatusNotFound)
  /\ Paginated.updateNoteHandler (H := Drivers.lenient) f db r
     = (db, Error "Note not found" StatusNotFound).
Proof.
  intros f db r.
  assert (Hid : Get "id" (URLQuery r) <> "") by discriminate.
  destruct (C10_rows_affected_error_dropped Drivers.lenient f db r "no count"
              Hid eq_refl) as [Hdel Hupd].
  split.
  - exact (proj1 (proj2 (Hdel _ _ eq_refl))).
  - exact (proj2 (Hupd _ _ eq_refl)).
Defined.

(** *** The create handler *)

(** The redirect that answers a POST has no Content-Type and no body; the
    one that answers a GET has the Content-Type of HTML and an anchor. *)
Lemma Redirect_post {D : Type} (r : Request) (url : string) (code : Z) :
  Method r = MethodPost ->
  @Redirect D r url code = mkResponse code None (Some url) NoBody.
Proof. intros Hpost. unfold Redirect. rewrite Hpost. reflexivity. Qed.

Example Redirect_get :
  @Redirect Paginated.PageData (mkRequest MethodGet [("id", "2")] []) "/"
    StatusSeeOther
  = mkResponse StatusSeeOther (Some "text/html; charset=utf-8") (Some "/")
      (Text (String.append "<a href="
               (String.append quote
                  (String.append "/"
                     (String.append quote
                        (String.append ">See Other</a>." newline)))))).
Proof. reflexivity. Qed.


Lemma nonempty_fields (title content : string) :
  title <> "" -> content <> "" ->
  String.eqb title "" || String.eqb content "" = false.
Proof.
  intros Ht Hc. apply orb_false_iff. split; now apply String.eqb_neq.
Qed.

Lemma empty_field (title content : string) :
  title = "" \/ content = "" ->
  String.eqb title "" || String.eqb content "" = true.
Proof.
  intros [-> | ->]; [reflexivity|]. apply orb_true_iff. now right.
Qed.



(** C4. A request to the create handler whose title or content is empty is
    answered with a client error and leaves the table as it was: 400 in the
    simple variant; in the paginated variant 400 for a POST and 405
    otherwise. *)
Theorem C4_create_rejects_empty (D : Driver) (f : Faults) (db : DB)
  (r : Request) :
  FormValue r "title" = "" \/ FormValue r "content" = "" ->
  Simple.createNoteHandler f db r
  = (db, Error "Title and content are required" StatusBadRequest)
  /\ fst (Paginated.createNoteHandler f db r) = db
  /\ is_client_error (snd (Simple.createNoteHandler f db r)) = true
  /\ is_client_error (snd (Paginated.createNoteHandler f db r)) = true
  /\ (Method r = MethodPost ->
      Paginated.createNoteHandler f db r
      = (db, Error "Title and content are required" StatusBadRequest)).
Proof.
  intros Hempty. apply empty_field in Hempty.
  unfold Simple.createNoteHandler, Paginated.createNoteHandler.
  rewrite Hempty.
  destruct (negb (String.eqb (Method r) MethodPost)) eqn:Hm;
    repeat split; try reflexivity.
  intros Hpost. rewrite Hpost in Hm. discriminate.
Qed.

(** A POST with an empty content on a table of one note. *)
Lemma C4_create_rejects_empty_witness :
  let db := mkDB [mkRow 1 "a" "A"] 1 in
  let r := mkRequest MethodPost [] [("title", "t"); ("content", "")] in
  Paginated.createNoteHandler (H := Drivers.strict) no_faults db r
  = (db, Error "Title and content are required" StatusBadRequest).
Proof.
  intros db r.
  assert (Hempty : FormValue r "title" = "" \/ FormValue r "content" = "")
    by (right; reflexivity).
  exact (proj2 (proj2 (proj2 (proj2
           (C4_create_rejects_empty Drivers.strict no_faults db r Hempty))))
           eq_refl).
Defined.

(** C5 as stated fails in the simple variant, whose create handler never
    looks at the method: a GET that carries both fields in its query string
    stores the note and is answered 303 with the Location of the note. *)
Lemma C5_counterexample :
  let db := mkDB [] 0 in
  let r := mkRequest MethodGet [("title", "t"); ("content", "c")] [] in
  let out := Simple.createNoteHandler (H := Drivers.strict) no_faults db r in
  Method r <> MethodPost
  /\ fst out = mkDB [mkRow 1 "t" "c"] 1
  /\ Status (snd out) = StatusSeeOther
  /\ Location (snd out) = Some "/note?id=1"
  /\ Status (snd out) <> StatusMethodNotAllowed
  /\ fst out <> db.
Proof. repeat split; discriminate. Qed.

(** C5 (amended). In the paginated variant a request to the create handler
    whose method is not POST is answered 405 and inserts nothing. *)
Theorem C5_method_check (D : Driver) (f : Faults) (db : DB) (r : Request) :
  Method r <> MethodPost ->
  Paginated.createNoteHandler f db r
  = (db, Error "Method not allowed" StatusMethodNotAllowed).
Proof.
  intros Hm. unfold Paginated.createNoteHandler.
  apply String.eqb_neq in Hm. rewrite Hm. reflexivity.
Qed.

(** A GET on the create route of the paginated variant. *)
Lemma C5_method_check_witness :
  let db := mkDB [] 0 in
  let r := mkRequest MethodGet [("title", "t"); ("content", "c")] [] in
  Paginated.createNoteHandler (H := Drivers.strict) no_faults db r
  = (db, Error "Method not allowed" StatusMethodNotAllowed).
Proof.
  intros db r.
  assert (Hm : Method r <> MethodPost) by discriminate.
  exact (C5_method_check Drivers.strict no_faults db r Hm).
Defined.

(** *** The detail handler *)

Lemma QueryRow_no_match (D : Driver) (f : Faults) (db : DB) (v : Value) :
  query_error f = None ->
  (forall row, In row (notes db) -> matches v row = false) ->
  QueryRow_Scan f db "SELECT id, title, content FROM notes WHERE id = ?" [v]
  = inr ErrNoRows.
Proof.
  intros Hq Hno. unfold QueryRow_Scan.
  rewrite (Facts.Query_by_id f db v Hq), (Facts.filter_none _ _ Hno).
  reflexivity.
Qed.



Lemma QueryRow_found (D : Driver) (f : Faults) (db : DB) (v : Value)
  (row : Row) :
  query_error f = None -> scan_error f = None ->
  wf db -> In row (notes db) -> matches v row = true ->
  QueryRow_Scan f db "SELECT id, title, content FROM notes WHERE id = ?" [v]
  = inl row
  /\ (forall row', In row' (notes db) -> matches v row' = true -> row' = row).
Proof.
  intros Hq Hs Hwf Hin Hm. unfold QueryRow_Scan.
  rewrite (Facts.Query_by_id f db v Hq).
  destruct (Facts.split_at_match v (notes db) row Hwf Hin Hm)
    as (l1 & l2 & Hrows & Hothers).
  rewrite Hrows.
  rewrite (proj1 (Facts.filter_single v l1 l2 row Hothers Hm)).
  unfold Scan. rewrite Hs. split; [reflexivity|].
  intros row' Hin' Hm'.
  apply in_app_or in Hin' as [Hin' | [Heq | Hin']].
  - rewrite Hothers in Hm' by (apply in_or_app; now left). discriminate.
  - now symmetry.
  - rewrite Hothers in Hm' by (apply in_or_app; now right). discriminate.
Qed.



(** *** The remove handler *)

Lemma delete_no_match (D : Driver) (db : DB) (v : Value) :
  (forall row, In row (notes db) -> matches v row = false) ->
  delete db v = (db, inl (mkResult 0 0)).
Proof.
  intros Hno. unfold delete.
  rewrite Facts.filter_all by (intros x Hx; now rewrite Hno).
  rewrite Nat.sub_diag, Facts.db_eta. reflexivity.
Qed.

Lemma delete_match (D : Driver) (db : DB) (v : Value) (l1 l2 : list Row)
  (row : Row) :
  notes db = l1 ++ row :: l2 ->
  (forall x, In x (l1 ++ l2) -> matches v x = false) ->
  matches v row = true ->
  delete db v = (mkDB (l1 ++ l2) (seq db), inl (mkResult 0 1)).
Proof.
  intros Hrows Hothers Hm. unfold delete. rewrite Hrows.
  rewrite (proj2 (Facts.filter_single v l1 l2 row Hothers Hm)).
  rewrite !length_app. simpl.
  replace (List.length l1 + S (List.length l2)
           - (List.length l1 + List.length l2))%nat with 1%nat by lia.
  reflexivity.
Qed.

(** C7. The remove handler of either variant, given a non-empty [id]: when
    the id matches no row the table is left as it was and a statement that
    runs is answered 404; when it matches a row and the statement runs, that
    one row is gone, every other row stays in place, and the answer, once
    the count has been read, is the see-other redirect of that request to
    the listing route. *)
Theorem C7_remove (D : Driver) (f : Faults) (db : DB) (r : Request) :
  let id := Get "id" (URLQuery r) in
  id <> "" ->
  ((forall row, In row (notes db) -> matches (VText id) row = false) ->
   fst (Simple.removeNoteHandler f db r) = db
   /\ fst (Paginated.removeNoteHandler f db r) = db
   /\ (exec_error f = None ->
       snd (Simple.removeNoteHandler f db r)
       = Error "Note not found" StatusNotFound
       /\ snd (Paginated.removeNoteHandler f db r)
          = Error "Note not found" StatusNotFound))
  /\ (forall row,
         wf db -> In row (notes db) -> matches (VText id) row = true ->
         exec_error f = None ->
         exists l1 l2,
           notes db = l1 ++ row :: l2
           /\ ~ In row (l1 ++ l2)
           /\ fst (Simple.removeNoteHandler f db r)
              = mkDB (l1 ++ l2) (seq db)
           /\ fst (Paginated.removeNoteHandler f db r)
              = mkDB (l1 ++ l2) (seq db)
           /\ (rows_affected_error f = None ->
               snd (Simple.removeNoteHandler f db r)
               = Redirect r "/" StatusSeeOther
               /\ snd (Paginated.removeNoteHandler f db r)
                  = Redirect r "/" StatusSeeOther)).
Proof.
  intros id Hid.
  unfold Simple.removeNoteHandler, Paginated.removeNoteHandler. fold id.
  rewrite (id_required id Hid). split.
  - intros Hno. destruct (exec_error f) as [e|] eqn:Hf.
    + rewrite (Facts.Exec_fault f db _ _ e Hf). simpl.
      repeat split; discriminate.
    + rewrite (Facts.Exec_delete f db _ Hf), (delete_no_match D db _ Hno).
      unfold RowsAffected.
      destruct (rows_affected_error f); simpl; repeat split; reflexivity.
  - intros row Hwf Hin Hm Hf.
    destruct (Facts.split_at_match (VText id) (notes db) row Hwf Hin Hm)
      as (l1 & l2 & Hrows & Hothers).
    exists l1, l2. split; [exact Hrows|]. split.
    { intros Hrow. rewrite (Hothers row Hrow) in Hm. discriminate. }
    rewrite (Facts.Exec_delete f db _ Hf).
    rewrite (delete_match D db _ l1 l2 row Hrows Hothers Hm).
    unfold RowsAffected.
    destruct (rows_affected_error f); simpl; repeat split;
      try reflexivity; discriminate.
Qed.

(** The middle one of three notes removed. *)
Lemma C7_remove_witness :
  let db := mkDB [mkRow 1 "a" "A"; mkRow 2 "b" "B"; mkRow 3 "c" "C"] 3 in
  let r := mkRequest MethodGet [("id", "2")] [] in
  exists l1 l2,
    notes db = l1 ++ mkRow 2 "b" "B" :: l2
    /\ Paginated.removeNoteHandler (H := Drivers.strict) no_faults db r
       = (mkDB (l1 ++ l2) 3, Redirect r "/" StatusSeeOther)
    /\ Status (Redirect (D := Paginated.PageData) r "/" StatusSeeOther)
       = StatusSeeOther
    /\ Location (Redirect (D := Paginated.PageData) r "/" StatusSeeOther)
       = Some "/".
Proof.
  intros db r.
  assert (Hid : Get "id" (URLQuery r) <> "") by discriminate.
  assert (Hwf : wf db).
  { repeat constructor; simpl; intuition discriminate. }
  destruct (C7_remove Drivers.strict no_faults db r Hid) as [_ H].
  destruct (H (mkRow 2 "b" "B") Hwf (or_intror (or_introl eq_refl)) eq_refl
              eq_refl) as (l1 & l2 & Hrows & _ & _ & Hdb & Hresp).
  exists l1, l2. split; [exact Hrows|].
  rewrite (surjective_pairing (Paginated.removeNoteHandler _ _ _)).
  rewrite Hdb, (proj2 (Hresp eq_refl)). repeat split.
Defined.

(** *** What a request can do to the table *)

Lemma insert_writes (D : Driver) (f : Faults) (db : DB) (t c : string) :
  String.eqb t "" || String.eqb c "" = false ->
  writes db
    (fst (Exec f db "INSERT INTO notes (title, content) VALUES (?, ?)"
            [VText t; VText c])).
Proof.
  intros Hguard. apply orb_false_iff in Hguard as [Ht Hc].
  apply String.eqb_neq in Ht, Hc.
  destruct (exec_error f) as [e|] eqn:Hf.
  - rewrite (Facts.Exec_fault f db _ _ e Hf). constructor.
  - rewrite (Facts.Exec_insert f db _ _ Hf). unfold insert. simpl.
    destruct (next_rowid db <=? maxInt); simpl; now constructor.
Qed.

Lemma delete_writes (D : Driver) (f : Faults) (db : DB) (v : Value) :
  writes db (fst (Exec f db "DELETE FROM notes WHERE id = ?" [v])).
Proof.
  destruct (exec_error f) as [e|] eqn:Hf.
  - rewrite (Facts.Exec_fault f db _ _ e Hf). constructor.
  - rewrite (Facts.Exec_delete f db _ Hf). constructor.
Qed.

Lemma Simple_create_writes (D : Driver) (f : Faults) (db : DB) (r : Request) :
  writes db (fst (Simple.createNoteHandler f db r)).
Proof.
  unfold Simple.createNoteHandler.
  destruct (String.eqb (FormValue r "title") ""
            || String.eqb (FormValue r "content") "") eqn:Hguard;
    [constructor|].
  pose proof (insert_writes D f db _ _ Hguard) as Hw.
  destruct (Exec f db _ _) as [db' [res|err]]; simpl in *; [|exact Hw].
  destruct (LastInsertId f res) as [id [err|]]; exact Hw.
Qed.

Lemma Paginated_create_writes (D : Driver) (f : Faults) (db : DB)
  (r : Request) :
  writes db (fst (Paginated.createNoteHandler f db r)).
Proof.
  unfold Paginated.createNoteHandler.
  destruct (negb (String.eqb (Method r) MethodPost)); [constructor|].
  destruct (String.eqb (FormValue r "title") ""
            || String.eqb (FormValue r "content") "") eqn:Hguard;
    [constructor|].
  pose proof (insert_writes D f db _ _ Hguard) as Hw.
  destruct (Exec f db _ _) as [db' [res|err]]; simpl in *; [|exact Hw].
  destruct (LastInsertId f res) as [id [err|]]; exact Hw.
Qed.

Lemma Simple_remove_writes (D : Driver) (f : Faults) (db : DB) (r : Request) :
  writes db (fst (Simple.removeNoteHandler f db r)).
Proof.
  unfold Simple.removeNoteHandler.
  destruct (String.eqb (Get "id" (URLQuery r)) ""); [constructor|].
  pose proof (delete_writes D f db (VText (Get "id" (URLQuery r)))) as Hw.
  destruct (Exec f db _ _) as [db' [res|err]]; simpl in *; [|exact Hw].
  destruct (RowsAffected f res) as [n err].
  destruct (n =? 0); exact Hw.
Qed.

Lemma Paginated_remove_writes (D : Driver) (f : Faults) (db : DB)
  (r : Request) :
  writes db (fst (Paginated.removeNoteHandler f db r)).
Proof.
  unfold Paginated.removeNoteHandler.
  destruct (String.eqb (Get "id" (URLQuery r)) ""); [constructor|].
  pose proof (delete_writes D f db (VText (Get "id" (URLQuery r)))) as Hw.
  destruct (Exec f db _ _) as [db' [res|err]]; simpl in *; [|exact Hw].
  destruct (RowsAffected f res) as [n err].
  destruct (n =? 0); exact Hw.
Qed.

Lemma Paginated_update_writes (D : Driver) (f : Faults) (db : DB)
  (r : Request) :
  fst (Paginated.updateNoteHandler f db r) = db.
Proof.
  unfold Paginated.updateNoteHandler.
  destruct (String.eqb (Get "id" (URLQuery r)) ""); [reflexivity|].
  pose proof (Exec_update_one_argument D f db (Get "id" (URLQuery r)))
    as [Hdb _]. cbv zeta in Hdb.
  destruct (Exec f db _ _) as [db' [res|err]]; simpl in *; [|exact Hdb].
  destruct (RowsAffected f res) as [n err].
  destruct (n =? 0); exact Hdb.
Qed.

Lemma Simple_handle_writes (D : Driver) (c : Simple.Call) (f : Faults)
  (db : DB) (r : Request) :
  writes db (fst (Simple.handle c f db r)).
Proof.
  destruct c; simpl.
  - apply Simple_create_writes.
  - apply Simple_remove_writes.
Qed.

Lemma Paginated_handle_writes (D : Driver) (c : Paginated.Call) (f : Faults)
  (db : DB) (r : Request) :
  writes db (fst (Paginated.handle c f db r)).
Proof.
  destruct c; simpl.
  - apply Paginated_create_writes.
  - rewrite Paginated_update_writes. constructor.
  - apply Paginated_remove_writes.
Qed.

(** Both properties of the table are kept by every write. *)
Lemma writes_filled (D : Driver) (db db' : DB) :
  writes db db' -> Forall filled (notes db) -> Forall filled (notes db').
Proof.
  intros Hw Hall. destruct Hw as [|t c Ht Hc|v]; simpl.
  - exact Hall.
  - apply Forall_app. split; [exact Hall|].
    constructor; [|constructor]. split; assumption.
  - apply Forall_forall. intros x Hx. apply filter_In in Hx as [Hx _].
    revert x Hx. now apply Forall_forall.
Qed.

Lemma NoDup_map_filter (p : Row -> bool) (rows : list Row) :
  NoDup (map row_id rows) -> NoDup (map row_id (filter p rows)).
Proof.
  induction rows as [|x rows IH]; simpl; intros Hnd; [constructor|].
  inversion Hnd as [|? ? Hx Hrest]; subst.
  destruct (p x); simpl; [|now apply IH].
  constructor; [|now apply IH].
  intros Hin. apply Hx. apply in_map_iff in Hin as (y & Hy & Hin).
  apply filter_In in Hin as [Hin _]. apply in_map_iff. now exists y.
Qed.

Lemma NoDup_snoc (l : list Z) (x : Z) :
  NoDup l -> ~ In x l -> NoDup (l ++ [x]).
Proof.
  induction l as [|y l IH]; simpl; intros Hnd Hx.
  - constructor; [tauto|constructor].
  - inversion Hnd as [|? ? Hy Hrest]; subst. constructor.
    + intros Hin. apply in_app_or in Hin as [Hin | [-> | []]]; tauto.
    + apply IH; tauto.
Qed.

Lemma writes_wf (D : Driver) (db db' : DB) :
  writes db db' -> wf db -> wf db'.
Proof.
  unfold wf, ids. intros Hw Hwf. destruct Hw as [|t c Ht Hc|v]; simpl.
  - exact Hwf.
  - rewrite map_app. simpl. apply NoDup_snoc; [exact Hwf|].
    apply (Facts.next_rowid_fresh db).
  - now apply NoDup_map_filter.
Qed.

(** Every table the handlers reach from an empty one respects the primary
    key, the condition under which the detail and remove handlers meet one
    matching row at most. *)
Lemma reachable_wf (D : Driver) (s0 : Z) :
  (forall calls, wf (Simple.run calls (mkDB [] s0)))
  /\ (forall calls, wf (Paginated.run calls (mkDB [] s0))).
Proof.
  assert (H0 : wf (mkDB [] s0)) by constructor.
  split; intros calls; revert H0; generalize (mkDB [] s0);
    induction calls as [|[[c f] r] calls IH]; intros db Hdb; simpl;
    try exact Hdb; apply IH.
  - exact (writes_wf D _ _ (Simple_handle_writes D c f db r) Hdb).
  - exact (writes_wf D _ _ (Paginated_handle_writes D c f db r) Hdb).
Qed.

(** *** The invariant of the table *)

(** C8. Starting from an empty table, after any sequence of create, update
    and remove requests, under any failures of the storage, every note in the
    table has a non-empty title and a non-empty content. The check is the
    create handler's: the table itself accepts an empty text. *)
Theorem C8_notes_are_filled (D : Driver) (s0 : Z) :
  (forall calls, Forall filled (notes (Simple.run calls (mkDB [] s0))))
  /\ (forall calls, Forall filled (notes (Paginated.run calls (mkDB [] s0))))
  /\ Exec no_faults (mkDB [] 0)
       "INSERT INTO notes (title, content) VALUES (?, ?)" [VText ""; VText ""]
     = (mkDB [mkRow 1 "" ""] 1, inl (mkResult 1 1)).
Proof.
  assert (H0 : Forall filled (notes (mkDB [] s0))) by constructor.
  split; [|split]; [| |reflexivity].
  - intros calls. revert H0. generalize (mkDB [] s0).
    induction calls as [|[[c f] r] calls IH]; intros db Hdb; simpl.
    + exact Hdb.
    + apply IH.
      exact (writes_filled D _ _ (Simple_handle_writes D c f db r) Hdb).
  - intros calls. revert H0. generalize (mkDB [] s0).
    induction calls as [|[[c f] r] calls IH]; intros db Hdb; simpl.
    + exact Hdb.
    + apply IH.
      exact (writes_filled D _ _ (Paginated_handle_writes D c f db r) Hdb).
Qed.

(** *** Create, then look up *)

(** The note just inserted is the one row that its id finds. *)
Lemma QueryRow_inserted (D : Driver) (f : Faults) (db : DB) (t c : string) :
  let id := next_rowid db in
  numeric (FormatInt id) = Some id ->
  query_error f = None -> scan_error f = None ->
  QueryRow_Scan f (mkDB (notes db ++ [mkRow id t c]) id)
    "SELECT id, title, content FROM notes WHERE id = ?" [VText (FormatInt id)]
  = inl (mkRow id t c).
Proof.
  intros id Hnum Hq Hs. unfold QueryRow_Scan.
  rewrite (Facts.Query_by_id f _ _ Hq). simpl notes.
  assert (Hnew : matches (VText (FormatInt id)) (mkRow id t c) = true).
  { unfold matches, id_eq. rewrite Hnum. apply Z.eqb_refl. }
  assert (Hold : forall x, In x (notes db ++ []) ->
                           matches (VText (FormatInt id)) x = false).
  { intros x Hx. rewrite app_nil_r in Hx.
    unfold matches, id_eq. rewrite Hnum. apply Z.eqb_neq.
    apply Facts.max_rowid_ge in Hx. unfold id, next_rowid. lia. }
  rewrite (proj1 (Facts.filter_single _ (notes db) [] _ Hold Hnew)).
  unfold Scan. now rewrite Hs.
Qed.

(** C9. A note created with a non-empty title and a non-empty content, and
    then fetched by the detail handler under the id that the redirect of the
    create handler carried, comes back with the title and the content that
    were submitted. The storage reports no failure, the table has an id left
    to give, and the driver reads the decimal text of the id as that id. *)
Theorem C9_create_then_detail (D : Driver) (f f' : Faults) (db : DB)
  (r r' : Request) :
  let title := FormValue r "title" in
  let content := FormValue r "content" in
  let id := next_rowid db in
  Method r = MethodPost ->
  title <> "" -> content <> "" ->
  exec_error f = None -> last_insert_id_error f = None -> id <= maxInt ->
  numeric (FormatInt id) = Some id ->
  Get "id" (URLQuery r') = FormatInt id ->
  query_error f' = None -> scan_error f' = None -> template_error f' = None ->
  (exists db',
      Paginated.createNoteHandler f db r
      = (db', mkResponse StatusSeeOther None
                (Some (String.append "/note?id=" (FormatInt id))) NoBody)
      /\ Paginated.detailPage f' db' r'
         = mkResponse StatusOK Paginated.html None
             (Page "details"
                (Paginated.NoteData (Paginated.mkNote id title content))))
  /\ (exists db',
         Simple.createNoteHandler f db r
         = (db', mkResponse StatusSeeOther None
                   (Some (String.append "/note?id=" (FormatInt id))) NoBody)
         /\ Simple.noteDetailPage f' db' r'
            = mkResponse StatusOK None None
                (Page "details"
                   (Simple.NoteData
                      (Simple.mkNote (FormatInt id) title content)))).
Proof.
  intros title content id Hpost Ht Hc Hf Hl Hroom Hnum Hid Hq Hs Htm.
  pose proof (nonempty_fields title content Ht Hc) as Hguard.
  pose proof (QueryRow_inserted D f' db title content Hnum Hq Hs) as Hrow.
  fold id in Hrow.
  assert (Hins : Exec f db "INSERT INTO notes (title, content) VALUES (?, ?)"
                   [VText title; VText content]
                 = (mkDB (notes db ++ [mkRow id title content]) id,
                    inl (mkResult id 1))).
  { rewrite (Facts.Exec_insert f db _ _ Hf). unfold insert. simpl.
    fold id. apply Z.leb_le in Hroom. now rewrite Hroom. }
  pose proof (id_required _ (Facts.FormatInt_nonempty id)) as Hne.
  split; eexists; split.
  - unfold Paginated.createNoteHandler, Redirect. fold title content.
    rewrite Hpost, Hguard, Hins. unfold LastInsertId. rewrite Hl.
    reflexivity.
  - unfold Paginated.detailPage. rewrite Hid, Hne, Hrow.
    unfold Execute. rewrite Htm. reflexivity.
  - unfold Simple.createNoteHandler, Redirect. fold title content.
    rewrite Hpost, Hguard, Hins. unfold LastInsertId. rewrite Hl. reflexivity.
  - unfold Simple.noteDetailPage. rewrite Hid, Hne, Hrow.
    unfold Execute. rewrite Htm. reflexivity.
Qed.

(** A second note, created and read back. *)
Lemma C9_create_then_detail_witness :
  let db := mkDB [mkRow 1 "a" "A"] 1 in
  let r := mkRequest MethodPost [] [("title", "t"); ("content", "c")] in
  let r' := mkRequest MethodGet [("id", "2")] [] in
  exists db',
    Paginated.createNoteHandler (H := Drivers.strict) no_faults db r
    = (db', mkResponse StatusSeeOther None (Some "/note?id=2") NoBody)
    /\ Paginated.detailPage (H := Drivers.strict) no_faults db' r'
       = mkResponse StatusOK Paginated.html None
           (Page "details" (Paginated.NoteData (Paginated.mkNote 2 "t" "c"))).
Proof.
  intros db r r'.
  assert (Ht : FormValue r "title" <> "") by discriminate.
  assert (Hc : FormValue r "content" <> "") by discriminate.
  assert (Hroom : next_rowid db <= maxInt) by (vm_compute; discriminate).
  exact (proj1 (C9_create_then_detail Drivers.strict no_faults no_faults db r
                  r' eq_refl Ht Hc eq_refl eq_refl Hroom eq_refl eq_refl
                  eq_refl eq_refl eq_refl)).
Defined.

(** ** Further properties of the handlers *)

(** *** Decimal texts *)

Lemma digits_acc (d : Decimal.uint) (p : positive) :
  digits (Zpos p) (NilEmpty.string_of_uint d)
  = Some (Zpos (Pos.of_uint_acc d p)).
Proof.
  revert p. induction d as [|d IH|d IH|d IH|d IH|d IH|d IH|d IH|d IH|d IH|d IH];
    intros p; cbn [NilEmpty.string_of_uint digits Pos.of_uint_acc];
    [reflexivity|..];
    match goal with
    | |- context [digit ?c] =>
        let v := eval vm_compute in (digit c) in
        change (digit c) with v; cbv iota
    end;
    rewrite <- IH; f_equal; lia.
Qed.

Lemma digits_uint (d : Decimal.uint) :
  digits 0 (NilEmpty.string_of_uint d) = Some (Z.of_N (Pos.of_uint d)).
Proof.
  induction d as [|d IH|d IH|d IH|d IH|d IH|d IH|d IH|d IH|d IH|d IH];
    cbn [NilEmpty.string_of_uint digits Pos.of_uint];
    [reflexivity|exact IH|..];
    match goal with
    | |- context [digit ?c] =>
        let v := eval vm_compute in (digit c) in
        change (digit c) with v; cbv iota
    end;
    apply (digits_acc d).
Qed.

Lemma digits_of_positive (p : positive) :
  digits 0 (NilEmpty.string_of_uint (Pos.to_uint p)) = Some (Zpos p).
Proof.
  rewrite digits_uint, DecimalPos.Unsigned.of_to. reflexivity.
Qed.

(** The decimal text of a positive number: its first character is a digit,
    neither sign. *)
Lemma text_of_positive (p : positive) :
  exists c rest,
    NilZero.string_of_uint (Pos.to_uint p) = String c rest
    /\ NilEmpty.string_of_uint (Pos.to_uint p) = String c rest
    /\ Ascii.eqb c "-" = false /\ Ascii.eqb c "+" = false.
Proof.
  pose proof (DecimalPos.Unsigned.to_uint_nonnil p) as Hnil.
  destruct (Pos.to_uint p); [congruence|..];
    eexists; eexists; repeat split; reflexivity.
Qed.

(** [Atoi] reads back what [%d] prints, for every value of an [int]. *)
Lemma Atoi_FormatInt (z : Z) :
  minInt <= z <= maxInt -> Atoi (FormatInt z) = Some z.
Proof.
  intros Hz. unfold FormatInt.
  destruct z as [|p|p]; [reflexivity| |]; simpl Z.to_int;
    unfold NilZero.string_of_int;
    destruct (text_of_positive p) as (c & rest & Hz0 & He & Hm & Hp);
    pose proof (digits_of_positive p) as Hd; rewrite He in Hd.
  - rewrite Hz0. unfold Atoi. rewrite Hm, Hp, Hd.
    destruct ((minInt <=? Zpos p) && (Zpos p <=? maxInt)) eqn:Hr;
      [reflexivity|].
    apply andb_false_iff in Hr as [Hr | Hr]; apply Z.leb_gt in Hr; lia.
  - rewrite Hz0. unfold Atoi. change (Ascii.eqb "-" "-") with true.
    cbv iota beta. rewrite Hd.
    destruct ((minInt <=? - Zpos p) && (- Zpos p <=? maxInt)) eqn:Hr;
      [reflexivity|].
    apply andb_false_iff in Hr as [Hr | Hr]; apply Z.leb_gt in Hr; lia.
Qed.

(** *** The listing *)

Lemma Simple_scan_rows (f : Faults) (rows : list Row)
  (acc : list Simple.Note) :
  scan_error f = None ->
  Simple.scan_rows f rows acc = inl (acc ++ map Simple.note_of_row rows).
Proof.
  intros Hf. revert acc.
  induction rows as [|r rows IH]; intros acc; simpl.
  - now rewrite app_nil_r.
  - unfold Scan. rewrite Hf, IH, <- app_assoc. reflexivity.
Qed.

Lemma Simple_scan_rows_fault (f : Faults) (rows : list Row)
  (acc : list Simple.Note) (e : string) :
  scan_error f = Some e -> rows <> [] ->
  Simple.scan_rows f rows acc = inr (Err e).
Proof.
  intros Hf Hrows. destruct rows as [|r rows]; [congruence|].
  simpl. unfold Scan. now rewrite Hf.
Qed.

Lemma Paginated_scan_rows_fault (f : Faults) (rows : list Row)
  (acc : list Paginated.Note) (e : string) :
  scan_error f = Some e -> rows <> [] ->
  Paginated.scan_rows f rows acc = inr (Err e).
Proof.
  intros Hf Hrows. destruct rows as [|r rows]; [congruence|].
  simpl. unfold Scan. now rewrite Hf.
Qed.

Lemma Query_all (D : Driver) (f : Faults) (db : DB) :
  query_error f = None ->
  Query f db "SELECT * FROM notes" [] = inl (notes db).
Proof. intros Hf. unfold Query. rewrite Hf. reflexivity. Qed.

(** X1. The listing of the simple variant shows every note of the table,
    once and in the order of the table, on one page; a failure of the query,
    of a scan or of the row set turns the answer into a 500 that carries the
    failure's text, and so does a template that fails before it writes. A
    template that fails after it has written leaves the status 200 and the
    beginning of the page, with the failure's text appended. *)
Theorem Simple_listing_shows_all (D : Driver) (f : Faults) (db : DB)
  (r : Request) :
  (query_error f = None -> scan_error f = None ->
   rows_error f = None -> template_error f = None ->
   Simple.mainPage f db r
   = mkResponse StatusOK None None
       (Page "index" (Simple.NotesData (map Simple.note_of_row (notes db)))))
  /\ (forall e, query_error f = Some e ->
        Simple.mainPage f db r = Error e StatusInternalServerError)
  /\ (forall e, query_error f = None -> scan_error f = Some e ->
        notes db <> [] ->
        Simple.mainPage f db r = Error e StatusInternalServerError)
  /\ (forall e, query_error f = None -> scan_error f = None ->
        rows_error f = Some e ->
        Simple.mainPage f db r = Error e StatusInternalServerError)
  /\ (forall e, query_error f = None -> scan_error f = None ->
        rows_error f = None -> template_error f = Some e ->
        Simple.mainPage f db r
        = if template_wrote f
          then mkResponse StatusOK None None
                 (Partial "index"
                    (Simple.NotesData (map Simple.note_of_row (notes db))) e)
          else Error e StatusInternalServerError).
Proof.
  unfold Simple.mainPage. repeat split.
  - intros Hq Hs Hr Ht.
    rewrite (Query_all D f db Hq), (Simple_scan_rows f _ [] Hs).
    unfold Rows_Err, Execute. now rewrite Hr, Ht.
  - intros e Hq. unfold Query. now rewrite Hq.
  - intros e Hq Hs Hne.
    now rewrite (Query_all D f db Hq), (Simple_scan_rows_fault f _ [] e Hs Hne).
  - intros e Hq Hs Hr.
    rewrite (Query_all D f db Hq), (Simple_scan_rows f _ [] Hs).
    unfold Rows_Err. now rewrite Hr.
  - intros e Hq Hs Hr Ht.
    rewrite (Query_all D f db Hq), (Simple_scan_rows f _ [] Hs).
    unfold Rows_Err, Execute. now rewrite Hr, Ht.
Qed.

(** A table of two notes, listed. *)
Lemma Simple_listing_shows_all_witness :
  Simple.mainPage (H := Drivers.strict) no_faults
    (mkDB [mkRow 1 "a" "A"; mkRow 3 "c" "C"] 3)
    (mkRequest MethodGet [("page", "2")] [])
  = mkResponse StatusOK None None
      (Page "index"
         (Simple.NotesData [Simple.mkNote "1" "a" "A";
                            Simple.mkNote "3" "c" "C"])).
Proof.
  exact (proj1 (Simple_listing_shows_all Drivers.strict no_faults
                  (mkDB [mkRow 1 "a" "A"; mkRow 3 "c" "C"] 3)
                  (mkRequest MethodGet [("page", "2")] []))
           eq_refl eq_refl eq_refl eq_refl).
Defined.

Lemma first_of_skipn (rows : list Row) (o : nat) :
  firstn 1 (skipn o rows)
  = match nth_error rows o with
    | Some row => [row]
    | None => []
    end.
Proof.
  revert rows. induction o as [|o IH]; intros [|x rows]; simpl;
    try reflexivity.
  apply IH.
Qed.

Lemma window_two (rows : list Row) (o : Z) :
  0 <= o ->
  firstn 1 (window 2 o rows)
  = match nth_error rows (Z.to_nat o) with
    | Some row => [row]
    | None => []
    end
  /\ ((1 <? List.length (window 2 o rows))%nat = true
      <-> o + 1 < Z.of_nat (List.length rows)).
Proof.
  intros Ho. unfold window.
  change (2 <? 0) with false. cbv iota zeta.
  change (Z.to_nat 2) with 2%nat. split.
  - rewrite firstn_firstn. apply first_of_skipn.
  - rewrite Nat.ltb_lt, length_firstn, length_skipn. lia.
Qed.



Lemma page_of_decimal (r : Request) (z : Z) :
  minInt <= z <= maxInt ->
  Get "page" (URLQuery r) = FormatInt z ->
  Paginated.page_of r = Z.max 1 z.
Proof.
  intros Hz Hget. unfold Paginated.page_of.
  rewrite Hget, (Atoi_FormatInt z Hz).
  destruct (z <? 1) eqn:Hlt.
  - apply Z.ltb_lt in Hlt. lia.
  - apply Z.ltb_ge in Hlt. lia.
Qed.

(** X3. The page numbers that the paginated listing hands to its template
    lead on: [PrevPage] is the page before; [NextPage] is the page after, and
    a request whose [page] is the decimal text of either is served that
    page. On the last page an [int] can number, [NextPage] wraps around to
    the smallest [int], and a request for it is served page 1. *)
Theorem Paginated_page_links (D : Driver) (f : Faults) (db : DB)
  (r r' : Request) :
  query_error f = None -> scan_error f = None ->
  rows_error f = None -> template_error f = None ->
  exists data,
    Paginated.mainPage f db r
    = mkResponse StatusOK Paginated.html None
        (Page "index" (Paginated.IndexData data))
    /\ Paginated.PrevPage data = Paginated.Page data - 1
    /\ (Paginated.Page data < maxInt ->
        Paginated.NextPage data = Paginated.Page data + 1)
    /\ (Paginated.Page data = maxInt -> Paginated.NextPage data = minInt)
    /\ (Paginated.HasPrev data = true ->
        Get "page" (URLQuery r') = FormatInt (Paginated.PrevPage data) ->
        Paginated.page_of r' = Paginated.Page data - 1)
    /\ (Get "page" (URLQuery r') = FormatInt (Paginated.NextPage data) ->
        Paginated.page_of r'
        = if Paginated.Page data <? maxInt then Paginated.Page data + 1
          else 1).
Proof.
  intros Hq Hs Hr Ht.
  pose proof (page_of_range r) as Hk.
  pose proof (mainPage_served D f db r Hq Hs Hr Ht) as Hserved.
  cbv zeta in Hserved. eexists. split; [exact Hserved|].
  cbn [Paginated.Page Paginated.PrevPage Paginated.NextPage Paginated.HasPrev].
  set (k := Paginated.page_of r) in *.
  assert (Hnext : k < maxInt -> wrap (k + 1) = k + 1).
  { intros Hlt. apply Facts.wrap_id. unfold minInt, maxInt in *. lia. }
  split; [reflexivity|]. split; [exact Hnext|]. split; [|split].
  - intros ->. reflexivity.
  - intros Hprev Hget. rewrite Z.gtb_ltb in Hprev. apply Z.ltb_lt in Hprev.
    rewrite (page_of_decimal r' (k - 1)); [lia| |exact Hget].
    unfold minInt, maxInt in *. lia.
  - destruct (k <? maxInt) eqn:Hlt.
    + apply Z.ltb_lt in Hlt. rewrite (Hnext Hlt). intros Hget.
      rewrite (page_of_decimal r' (k + 1)); [lia| |exact Hget].
      unfold minInt, maxInt in *. lia.
    + apply Z.ltb_ge in Hlt. assert (Hmax : k = maxInt) by lia.
      rewrite Hmax. change (wrap (maxInt + 1)) with minInt. intros Hget.
      rewrite (page_of_decimal r' minInt); [reflexivity| |exact Hget].
      unfold minInt, maxInt. lia.
Qed.

(** From page 2 of three notes to page 3. *)
Lemma Paginated_page_links_witness :
  Paginated.page_of (mkRequest MethodGet [("page", "3")] []) = 3.
Proof.
  destruct (Paginated_page_links Drivers.strict no_faults
              (mkDB [mkRow 1 "a" "A"; mkRow 2 "b" "B"; mkRow 3 "c" "C"] 3)
              (mkRequest MethodGet [("page", "2")] [])
              (mkRequest MethodGet [("page", "3")] [])
              eq_refl eq_refl eq_refl eq_refl)
    as (data & Heq & _ & _ & _ & _ & Hnext).
  vm_compute in Heq. injection Heq as <-.
  exact (Hnext eq_refl).
Defined.

Lemma window_nonempty (rows : list Row) (o : Z) :
  0 <= o < Z.of_nat (List.length rows) -> window 2 o rows <> [].
Proof.
  intros Ho Hnil. apply (f_equal (@List.length Row)) in Hnil.
  unfold window in Hnil. change (2 <? 0) with false in Hnil.
  cbv iota zeta in Hnil. change (Z.to_nat 2) with 2%nat in Hnil.
  rewrite length_firstn, length_skipn in Hnil.
  change (List.length (@nil Row)) with 0%nat in Hnil. lia.
Qed.

(** The template of the paginated listing and the data it is executed with,
    when the storage has not failed. *)
Lemma mainPage_executes (D : Driver) (f : Faults) (db : DB) (r : Request) :
  query_error f = None -> scan_error f = None -> rows_error f = None ->
  let page := Paginated.page_of r in
  let fetched :=
    window (Paginated.limit + 1) ((page - 1) * Paginated.limit) (notes db) in
  Paginated.mainPage f db r
  = Execute f "index" Paginated.html
      (Paginated.IndexData
         (Paginated.mkIndexPageData
            (map Paginated.note_of_row (firstn 1 fetched))
            page
            (1 <? List.length fetched)%nat
            (page >? 1)
            (wrap (page + 1))
            (page - 1))).
Proof.
  intros Hq Hs Hr page fetched.
  pose proof (page_of_range r) as Hp. fold page in Hp.
  unfold Paginated.mainPage. fold page.
  assert (Hoff : wrap ((page - 1) * Paginated.limit)
                 = (page - 1) * Paginated.limit).
  { apply Facts.wrap_id. unfold Paginated.limit, minInt, maxInt in *. lia. }
  assert (Hlim : wrap (Paginated.limit + 1) = Paginated.limit + 1)
    by reflexivity.
  rewrite Hoff, Hlim, (Facts.Query_page f db _ _ Hq). fold fetched.
  rewrite (Paginated_scan_rows f fetched [] Hs). simpl app.
  unfold Rows_Err. rewrite Hr. rewrite length_map.
  assert (Hlen : (List.length fetched <= 2)%nat).
  { subst fetched. apply (window_length_le 2). lia. }
  assert (Hprev : wrap (page - 1) = page - 1).
  { apply Facts.wrap_id. unfold minInt, maxInt in *. lia. }
  rewrite Hprev. unfold Paginated.limit.
  destruct (Z.of_nat (List.length fetched) >? 1) eqn:Hgt.
  - assert (Hn : (1 <? List.length fetched)%nat = true).
    { apply Nat.ltb_lt. apply Z.gtb_lt in Hgt. lia. }
    rewrite Hn. change (Z.to_nat 1) with 1%nat.
    rewrite firstn_map. reflexivity.
  - assert (Hn : (1 <? List.length fetched)%nat = false).
    { apply Nat.ltb_ge. rewrite Z.gtb_ltb in Hgt. apply Z.ltb_ge in Hgt. lia. }
    rewrite Hn. rewrite (firstn_all2 (n := 1) fetched).
    + reflexivity.
    + apply Nat.ltb_ge in Hn. exact Hn.
Qed.

(** X4. The paginated listing answers 200 or 500 and nothing else: whatever
    the [page] parameter holds, it is no client error. A failure of the
    query, of the scan of a fetched row or of the row set is answered 500
    with the failure's text, and so is a template that fails before it
    writes. A template that fails after it has written leaves the status
    200, the Content-Type of HTML and the beginning of the page, with the
    failure's text appended. *)
Theorem Paginated_listing_failures (D : Driver) (f : Faults) (db : DB)
  (r : Request) :
  In (Status (Paginated.mainPage f db r))
    [StatusOK; StatusInternalServerError]
  /\ (forall e, query_error f = Some e ->
        Paginated.mainPage f db r = Error e StatusInternalServerError)
  /\ (forall e, query_error f = None -> scan_error f = Some e ->
        Paginated.page_of r <= Z.of_nat (List.length (notes db)) ->
        Paginated.mainPage f db r = Error e StatusInternalServerError)
  /\ (forall e, query_error f = None -> scan_error f = None ->
        rows_error f = Some e ->
        Paginated.mainPage f db r = Error e StatusInternalServerError)
  /\ (forall e, query_error f = None -> scan_error f = None ->
        rows_error f = None -> template_error f = Some e ->
        let page := Paginated.page_of r in
        let fetched :=
          window (Paginated.limit + 1) ((page - 1) * Paginated.limit)
            (notes db) in
        Paginated.mainPage f db r
        = if template_wrote f
          then mkResponse StatusOK Paginated.html None
                 (Partial "index"
                    (Paginated.IndexData
                       (Paginated.mkIndexPageData
                          (map Paginated.note_of_row (firstn 1 fetched))
                          page
                          (1 <? List.length fetched)%nat
                          (page >? 1)
                          (wrap (page + 1))
                          (page - 1))) e)
          else Error e StatusInternalServerError).
Proof.
  pose proof (page_of_range r) as Hk.
  assert (Hoff : wrap ((Paginated.page_of r - 1) * Paginated.limit)
                 = Paginated.page_of r - 1).
  { unfold Paginated.limit. rewrite Z.mul_1_r. apply Facts.wrap_id.
    unfold minInt, maxInt in *. lia. }
  split; [|repeat split].
  - unfold Paginated.mainPage.
    destruct (Query f db _ _) as [rows|err]; [|simpl; tauto].
    destruct (Paginated.scan_rows f rows []) as [notes|err]; [|simpl; tauto].
    destruct (Z.of_nat (List.length notes) >? Paginated.limit);
      destruct (Rows_Err f); try (simpl; tauto);
      unfold Execute; destruct (template_error f);
      try destruct (template_wrote f); simpl; tauto.
  - intros e Hq. unfold Paginated.mainPage, Query. now rewrite Hq.
  - intros e Hq Hs Hin. unfold Paginated.mainPage.
    rewrite Hoff. change (wrap (Paginated.limit + 1)) with 2.
    rewrite (Facts.Query_page f db _ _ Hq).
    rewrite (Paginated_scan_rows_fault f _ [] e Hs); [reflexivity|].
    apply window_nonempty. lia.
  - intros e Hq Hs Hr. unfold Paginated.mainPage.
    rewrite Hoff. change (wrap (Paginated.limit + 1)) with 2.
    rewrite (Facts.Query_page f db _ _ Hq), (Paginated_scan_rows f _ [] Hs).
    unfold Rows_Err. rewrite Hr.
    destruct (Z.of_nat _ >? _); reflexivity.
  - intros e Hq Hs Hr Ht. cbv zeta.
    pose proof (mainPage_executes D f db r Hq Hs Hr) as Hexe.
    cbv zeta in Hexe. rewrite Hexe. unfold Execute. rewrite Ht. reflexivity.
Qed.

(** A scan that fails on the only note of the table. *)
Lemma Paginated_listing_failures_witness :
  Paginated.mainPage (H := Drivers.strict)
    (mkFaults None None None None (Some "bad column") None None false)
    (mkDB [mkRow 1 "a" "A"] 1) (mkRequest MethodGet [] [])
  = Error "bad column" StatusInternalServerError.
Proof.
  assert (Hin : Paginated.page_of (mkRequest MethodGet [] [])
                <= Z.of_nat (List.length (notes (mkDB [mkRow 1 "a" "A"] 1))))
    by (vm_compute; discriminate).
  exact (proj1 (proj2 (proj2
           (Paginated_listing_failures Drivers.strict
              (mkFaults None None None None (Some "bad column") None None false)
              (mkDB [mkRow 1 "a" "A"] 1) (mkRequest MethodGet [] []))))
           "bad column" eq_refl eq_refl Hin).
Defined.

(** *** The edit form *)

(** X5. The edit form of the paginated variant answers every request as the
    detail page does, with the same status, the same content type and the
    same note or error text; only the template is [update]. For an id that
    finds a note it is the form filled with that note, for an id that finds
    none it is the 404. *)
Theorem Paginated_update_form_like_detail (D : Driver) (f : Faults) (db : DB)
  (r : Request) :
  let form := Paginated.updatePage f db r in
  let detail := Paginated.detailPage f db r in
  Status form = Status detail
  /\ ContentType form = ContentType detail
  /\ Location form = Location detail
  /\ (forall msg, Written detail = Text msg -> Written form = Text msg)
  /\ (forall name data,
         Written detail = Page name data ->
         name = "details" /\ Written form = Page "update" data)
  /\ (forall name data msg,
         Written detail = Partial name data msg ->
         name = "details" /\ Written form = Partial "update" data msg)
  /\ (forall row,
         Get "id" (URLQuery r) <> "" ->
         query_error f = None -> scan_error f = None ->
         template_error f = None ->
         wf db -> In row (notes db) ->
         matches (VText (Get "id" (URLQuery r))) row = true ->
         form = mkResponse StatusOK Paginated.html None
                  (Page "update"
                     (Paginated.NoteData (Paginated.note_of_row row))))
  /\ (Get "id" (URLQuery r) <> "" -> query_error f = None ->
      (forall row, In row (notes db) ->
                   matches (VText (Get "id" (URLQuery r))) row = false) ->
      form = Error "Note not found" StatusNotFound).
Proof.
  intros form detail. subst form detail.
  unfold Paginated.updatePage, Paginated.detailPage.
  destruct (String.eqb (Get "id" (URLQuery r)) "") eqn:Hid.
  { apply String.eqb_eq in Hid. simpl.
    repeat split; try congruence; try discriminate. }
  repeat match goal with |- _ /\ _ => split end.
  1-6: destruct (QueryRow_Scan f db _ _) as [row|err];
    [unfold Execute; destruct (template_error f);
     [destruct (template_wrote f)|]
    |destruct (is_ErrNoRows err)]; simpl;
    try reflexivity; try (intros; congruence); try discriminate;
    try (intros name data Heq; inversion Heq; subst; split; reflexivity);
    try (intros name data msg Heq; inversion Heq; subst; split; reflexivity).
  - intros row _ Hq Hs Ht Hwf Hin Hm.
    destruct (QueryRow_found D f db _ row Hq Hs Hwf Hin Hm) as [-> _].
    unfold Execute. now rewrite Ht.
  - intros _ Hq Hno. now rewrite (QueryRow_no_match D f db _ Hq Hno).
Qed.

(** The form for the first of two notes. *)
Lemma Paginated_update_form_like_detail_witness :
  let db := mkDB [mkRow 1 "a" "A"; mkRow 2 "b" "B"] 2 in
  let r := mkRequest MethodGet [("id", "1")] [] in
  Paginated.updatePage (H := Drivers.strict) no_faults db r
  = mkResponse StatusOK Paginated.html None
      (Page "update" (Paginated.NoteData (Paginated.mkNote 1 "a" "A"))).
Proof.
  intros db r.
  assert (Hid : Get "id" (URLQuery r) <> "") by discriminate.
  assert (Hwf : wf db).
  { repeat constructor; simpl; intuition discriminate. }
  destruct (Paginated_update_form_like_detail Drivers.strict no_faults db r)
    as (_ & _ & _ & _ & _ & _ & Hfound & _).
  exact (Hfound (mkRow 1 "a" "A") Hid eq_refl eq_refl eq_refl Hwf
           (or_introl eq_refl) eq_refl).
Defined.

(** *** Failures of the create handler *)

(** X6. A create request that passes the checks and meets a failing storage
    is answered 500. When the INSERT itself fails, by a reported error or
    because no id is left, the table is as it was. When only the retrieval
    of the generated id fails, the note has been stored all the same. *)
Theorem create_failures (D : Driver) (f : Faults) (db : DB) (r : Request) :
  let title := FormValue r "title" in
  let content := FormValue r "content" in
  Method r = MethodPost -> title <> "" -> content <> "" ->
  (forall e, exec_error f = Some e ->
     Simple.createNoteHandler f db r
     = (db, Error e StatusInternalServerError)
     /\ Paginated.createNoteHandler f db r
        = (db, Error e StatusInternalServerError))
  /\ (exec_error f = None -> maxInt < next_rowid db ->
      fst (Simple.createNoteHandler f db r) = db
      /\ fst (Paginated.createNoteHandler f db r) = db
      /\ Status (snd (Simple.createNoteHandler f db r))
         = StatusInternalServerError
      /\ Status (snd (Paginated.createNoteHandler f db r))
         = StatusInternalServerError)
  /\ (forall e, exec_error f = None -> next_rowid db <= maxInt ->
        last_insert_id_error f = Some e ->
        let stored :=
          mkDB (notes db ++ [mkRow (next_rowid db) title content])
            (next_rowid db) in
        Simple.createNoteHandler f db r
        = (stored, Error e StatusInternalServerError)
        /\ Paginated.createNoteHandler f db r
           = (stored, Error e StatusInternalServerError)).
Proof.
  intros title content Hpost Ht Hc.
  pose proof (nonempty_fields title content Ht Hc) as Hguard.
  unfold Simple.createNoteHandler, Paginated.createNoteHandler.
  fold title content. rewrite Hpost, Hguard.
  change (negb (String.eqb MethodPost MethodPost)) with false. cbv iota.
  split; [|split].
  - intros e Hf. rewrite (Facts.Exec_fault f db _ _ e Hf). split; reflexivity.
  - intros Hf Hfull. rewrite (Facts.Exec_insert f db _ _ Hf).
    unfold insert. simpl as_text. cbv iota zeta.
    apply Z.leb_gt in Hfull. rewrite Hfull. repeat split.
  - intros e Hf Hroom Hl. cbv zeta. rewrite (Facts.Exec_insert f db _ _ Hf).
    unfold insert. simpl as_text. cbv iota zeta.
    apply Z.leb_le in Hroom. rewrite Hroom.
    unfold LastInsertId. rewrite Hl. split; reflexivity.
Qed.

(** A note stored behind a 500. *)
Lemma create_failures_witness :
  let f := mkFaults None (Some "no id") None None None None None false in
  let r := mkRequest MethodPost [] [("title", "t"); ("content", "c")] in
  Paginated.createNoteHandler (H := Drivers.strict) f (mkDB [] 0) r
  = (mkDB [mkRow 1 "t" "c"] 1, Error "no id" StatusInternalServerError).
Proof.
  intros f r.
  assert (Ht : FormValue r "title" <> "") by discriminate.
  assert (Hc : FormValue r "content" <> "") by discriminate.
  assert (Hroom : next_rowid (mkDB [] 0) <= maxInt)
    by (vm_compute; discriminate).
  destruct (create_failures Drivers.strict f (mkDB [] 0) r eq_refl Ht Hc)
    as (_ & _ & Hid).
  exact (proj2 (Hid "no id" eq_refl Hroom eq_refl)).
Defined.

(** *** What the remove and update handlers read of a request *)

(** X7. What the remove handler of both variants and the update handler
    do depends on the [id] of the query string: two requests with the same
    [id] there leave the same table and get the same status and the same
    Location, whatever their methods and bodies, and with the same method
    they get the same answer altogether, so that nothing else of a request
    is read than that [id] and, by [http.Redirect], the method. A request
    with no [id] in its query string is answered 400 and changes nothing,
    also when its body carries an [id]. *)
Theorem id_read_from_query_only (D : Driver) (f : Faults) (db : DB) :
  let same (T : Type) (h : Request -> DB * Response T) (r1 r2 : Request) :=
    fst (h r1) = fst (h r2)
    /\ Status (snd (h r1)) = Status (snd (h r2))
    /\ Location (snd (h r1)) = Location (snd (h r2))
    /\ (Method r1 = Method r2 -> h r1 = h r2) in
  (forall r1 r2,
      Get "id" (URLQuery r1) = Get "id" (URLQuery r2) ->
      same _ (Simple.removeNoteHandler f db) r1 r2
      /\ same _ (Paginated.removeNoteHandler f db) r1 r2
      /\ same _ (Paginated.updateNoteHandler f db) r1 r2)
  /\ (forall r,
         Get "id" (URLQuery r) = "" ->
         Simple.removeNoteHandler f db r
         = (db, Error "ID is required" StatusBadRequest)
         /\ Paginated.removeNoteHandler f db r
            = (db, Error "ID is required" StatusBadRequest)
         /\ Paginated.updateNoteHandler f db r
            = (db, Error "ID is required" StatusBadRequest)).
Proof.
  cbv zeta.
  unfold Simple.removeNoteHandler, Paginated.removeNoteHandler,
    Paginated.updateNoteHandler.
  split.
  - intros r1 r2 ->.
    destruct (String.eqb (Get "id" (URLQuery r2)) "");
      [simpl; repeat split|].
    destruct (Exec f db "DELETE FROM notes WHERE id = ?" _)
      as [db1 [res1|err1]];
      destruct (Exec f db Paginated.update_statement _)
        as [db2 [res2|err2]];
      repeat match goal with
        | |- context [RowsAffected f ?res] =>
            destruct (RowsAffected f res) as [? ?]
        | |- context [?n =? 0] => destruct (n =? 0)
        end;
      simpl; repeat split; intros Hm; unfold Redirect; rewrite Hm;
      reflexivity.
  - intros r ->. repeat split.
Qed.

(** A POST that names its note in the body only. *)
Lemma id_read_from_query_only_witness :
  let db := mkDB [mkRow 1 "a" "A"] 1 in
  Paginated.removeNoteHandler (H := Drivers.strict) no_faults db
    (mkRequest MethodPost [] [("id", "1")])
  = (db, Error "ID is required" StatusBadRequest).
Proof.
  intros db.
  exact (proj1 (proj2 (proj2 (id_read_from_query_only Drivers.strict
                                no_faults db)
                         (mkRequest MethodPost [] [("id", "1")]) eq_refl))).
Defined.

(** X8. The remove handler answers 303, 400, 404 or 500. Behind a 400 or a
    500 the table is as it was; behind a 303 at least one row is gone. A
    DELETE that the storage refuses is answered 500 with the storage's
    text. *)
Theorem remove_answers (D : Driver) (f : Faults) (db : DB) (r : Request) :
  let out := Paginated.removeNoteHandler f db r in
  let out' := Simple.removeNoteHandler f db r in
  fst out' = fst out
  /\ Status (snd out') = Status (snd out)
  /\ In (Status (snd out))
       [StatusSeeOther; StatusBadRequest; StatusNotFound;
        StatusInternalServerError]
  /\ (Status (snd out) = StatusBadRequest
      \/ Status (snd out) = StatusInternalServerError -> fst out = db)
  /\ (Status (snd out) = StatusSeeOther ->
      (List.length (notes (fst out)) < List.length (notes db))%nat)
  /\ (forall e, Get "id" (URLQuery r) <> "" -> exec_error f = Some e ->
        out = (db, Error e StatusInternalServerError)).
Proof.
  intros out out'. subst out out'.
  unfold Simple.removeNoteHandler, Paginated.removeNoteHandler.
  destruct (String.eqb (Get "id" (URLQuery r)) "") eqn:Hid.
  { simpl. repeat split; try tauto; try discriminate.
    intros e Hne. apply String.eqb_eq in Hid. contradiction. }
  destruct (exec_error f) as [e|] eqn:Hf.
  { rewrite (Facts.Exec_fault f db _ _ e Hf). simpl.
    repeat split; try tauto; try discriminate.
    intros e' _ [= <-]. reflexivity. }
  rewrite (Facts.Exec_delete f db _ Hf). unfold delete, RowsAffected.
  set (kept := filter _ (notes db)).
  assert (Hle : (List.length kept <= List.length (notes db))%nat)
    by apply filter_length_le.
  destruct (rows_affected_error f); simpl.
  { repeat split; try tauto; try discriminate.
    intros [H | H]; discriminate. }
  destruct (Z.of_nat (List.length (notes db) - List.length kept) =? 0)
    eqn:Hz; simpl.
  - repeat split; try tauto; try discriminate.
    intros [H | H]; discriminate.
  - apply Z.eqb_neq in Hz.
    repeat split; try tauto; try discriminate.
    + intros [H | H]; discriminate.
    + intros _. lia.
Qed.

(** A DELETE refused by the storage. *)
Lemma remove_answers_witness :
  let f := mkFaults (Some "locked") None None None None None None false in
  let db := mkDB [mkRow 1 "a" "A"] 1 in
  Paginated.removeNoteHandler (H := Drivers.strict) f db
    (mkRequest MethodGet [("id", "1")] [])
  = (db, Error "locked" StatusInternalServerError).
Proof.
  intros f db.
  assert (Hid : Get "id" (URLQuery (mkRequest MethodGet [("id", "1")] []))
                <> "") by discriminate.
  exact (proj2 (proj2 (proj2 (proj2 (proj2
           (remove_answers Drivers.strict f db
              (mkRequest MethodGet [("id", "1")] []))))))
           "locked" Hid eq_refl).
Defined.

(** *** Lookups before and after a write *)

(** The answer of a lookup by id depends on the table through the rows that
    the id matches. *)
Lemma QueryRow_same_matches (D : Driver) (f : Faults) (db1 db2 : DB)
  (v : Value) :
  filter (matches v) (notes db1) = filter (matches v) (notes db2) ->
  QueryRow_Scan f db1 "SELECT id, title, content FROM notes WHERE id = ?" [v]
  = QueryRow_Scan f db2 "SELECT id, title, content FROM notes WHERE id = ?"
      [v].
Proof.
  intros Hsame. unfold QueryRow_Scan.
  destruct (query_error f) as [e|] eqn:Hq.
  - unfold Query. rewrite Hq. reflexivity.
  - rewrite !(Facts.Query_by_id f _ v Hq), Hsame. reflexivity.
Qed.

Lemma lookups_same_matches (D : Driver) (f : Faults) (db1 db2 : DB)
  (r : Request) :
  filter (matches (VText (Get "id" (URLQuery r)))) (notes db1)
  = filter (matches (VText (Get "id" (URLQuery r)))) (notes db2) ->
  Simple.noteDetailPage f db1 r = Simple.noteDetailPage f db2 r
  /\ Paginated.detailPage f db1 r = Paginated.detailPage f db2 r
  /\ Paginated.updatePage f db1 r = Paginated.updatePage f db2 r.
Proof.
  intros Hsame.
  unfold Simple.noteDetailPage, Paginated.detailPage, Paginated.updatePage.
  rewrite (QueryRow_same_matches D f db1 db2 _ Hsame). repeat split.
Qed.

(** The table that the remove handler leaves. *)
Lemma remove_table (D : Driver) (f : Faults) (db : DB) (r : Request) :
  let id := Get "id" (URLQuery r) in
  fst (Simple.removeNoteHandler f db r)
  = fst (Paginated.removeNoteHandler f db r)
  /\ (fst (Paginated.removeNoteHandler f db r) = db
      \/ fst (Paginated.removeNoteHandler f db r)
         = mkDB (filter (fun x => negb (matches (VText id) x)) (notes db))
             (seq db))
  /\ (id <> "" -> exec_error f = None ->
      fst (Paginated.removeNoteHandler f db r)
      = mkDB (filter (fun x => negb (matches (VText id) x)) (notes db))
          (seq db)).
Proof.
  intros id.
  unfold Simple.removeNoteHandler, Paginated.removeNoteHandler. fold id.
  destruct (String.eqb id "") eqn:Hid.
  { apply String.eqb_eq in Hid. simpl. repeat split; [now left|congruence]. }
  destruct (exec_error f) as [e|] eqn:Hf.
  { rewrite (Facts.Exec_fault f db _ _ e Hf). simpl.
    repeat split; [now left|discriminate]. }
  rewrite (Facts.Exec_delete f db _ Hf). unfold delete.
  destruct (RowsAffected f _) as [n err]. destruct (n =? 0); simpl;
    repeat split; now right.
Qed.

Lemma filter_after_delete (D : Driver) (v v' : Value) (rows : list Row) :
  (forall row, In row rows -> matches v' row = true -> matches v row = false) ->
  filter (matches v') (filter (fun x => negb (matches v x)) rows)
  = filter (matches v') rows.
Proof.
  induction rows as [|x rows IH]; intros Hsep; [reflexivity|]. simpl.
  assert (IH' : filter (matches v')
                  (filter (fun x => negb (matches v x)) rows)
                = filter (matches v') rows).
  { apply IH. intros row Hin. apply Hsep. now right. }
  destruct (matches v x) eqn:Hv; simpl.
  - destruct (matches v' x) eqn:Hv'; [|exact IH'].
    rewrite (Hsep x (or_introl eq_refl) Hv') in Hv. discriminate.
  - rewrite IH'. reflexivity.
Qed.

(** X9. Once the remove handler has run its DELETE for an id, that id finds
    nothing: the detail page and the edit form answer 404 for it and a
    second remove of it answers 404 and leaves the table as the first left
    it. *)
Theorem removed_note_is_gone (D : Driver) (f f' : Faults) (db : DB)
  (r r' : Request) :
  Get "id" (URLQuery r) <> "" ->
  Get "id" (URLQuery r') = Get "id" (URLQuery r) ->
  exec_error f = None ->
  let db' := fst (Paginated.removeNoteHandler f db r) in
  fst (Simple.removeNoteHandler f db r) = db'
  /\ (query_error f' = None ->
      Simple.noteDetailPage f' db' r' = Error "Note not found" StatusNotFound
      /\ Paginated.detailPage f' db' r'
         = Error "Note not found" StatusNotFound
      /\ Paginated.updatePage f' db' r'
         = Error "Note not found" StatusNotFound)
  /\ (exec_error f' = None ->
      Simple.removeNoteHandler f' db' r'
      = (db', Error "Note not found" StatusNotFound)
      /\ Paginated.removeNoteHandler f' db' r'
         = (db', Error "Note not found" StatusNotFound)).
Proof.
  intros Hid Hsame Hf db'.
  destruct (remove_table D f db r) as (Hs & _ & Hdb).
  specialize (Hdb Hid Hf). fold db' in Hdb, Hs.
  assert (Hno : forall row, In row (notes db') ->
                  matches (VText (Get "id" (URLQuery r'))) row = false).
  { intros row Hin. rewrite Hdb in Hin. simpl in Hin.
    apply filter_In in Hin as [_ Hm]. rewrite Hsame.
    now apply negb_true_iff in Hm. }
  assert (Hid' : String.eqb (Get "id" (URLQuery r')) "" = false)
    by (rewrite Hsame; now apply id_required).
  split; [exact Hs|]. split.
  - intros Hq.
    unfold Simple.noteDetailPage, Paginated.detailPage, Paginated.updatePage.
    rewrite Hid', (QueryRow_no_match D f' db' _ Hq Hno). repeat split.
  - intros Hf'.
    unfold Simple.removeNoteHandler, Paginated.removeNoteHandler.
    rewrite Hid', (Facts.Exec_delete f' db' _ Hf'),
      (delete_no_match D db' _ Hno).
    unfold RowsAffected. destruct (rows_affected_error f'); split; reflexivity.
Qed.

(** A note removed, then asked for. *)
Lemma removed_note_is_gone_witness :
  let db := mkDB [mkRow 1 "a" "A"; mkRow 2 "b" "B"] 2 in
  let r := mkRequest MethodGet [("id", "2")] [] in
  Paginated.detailPage (H := Drivers.strict) no_faults
    (fst (Paginated.removeNoteHandler (H := Drivers.strict) no_faults db r)) r
  = Error "Note not found" StatusNotFound.
Proof.
  intros db r.
  assert (Hid : Get "id" (URLQuery r) <> "") by discriminate.
  destruct (removed_note_is_gone Drivers.strict no_faults no_faults db r r
              Hid eq_refl eq_refl) as (_ & Hlook & _).
  exact (proj1 (proj2 (Hlook eq_refl))).
Defined.

(** X10. Removing a note leaves the lookups of the other notes alone: for
    an id that matches no row that the removed id matches, the detail page
    and the edit form answer after the remove as they did before it,
    whatever happened to the remove. *)
Theorem remove_keeps_other_lookups (D : Driver) (f f' : Faults) (db : DB)
  (r r' : Request) :
  let id := Get "id" (URLQuery r) in
  let id' := Get "id" (URLQuery r') in
  (forall row, In row (notes db) ->
     matches (VText id') row = true -> matches (VText id) row = false) ->
  let db' := fst (Paginated.removeNoteHandler f db r) in
  fst (Simple.removeNoteHandler f db r) = db'
  /\ Simple.noteDetailPage f' db' r' = Simple.noteDetailPage f' db r'
  /\ Paginated.detailPage f' db' r' = Paginated.detailPage f' db r'
  /\ Paginated.updatePage f' db' r' = Paginated.updatePage f' db r'.
Proof.
  intros id id' Hsep db'.
  destruct (remove_table D f db r) as (Hs & Hdb & _). fold db' id in Hdb, Hs.
  split; [exact Hs|].
  apply lookups_same_matches. fold id'.
  destruct Hdb as [-> | ->]; [reflexivity|].
  cbn [notes]. now apply filter_after_delete.
Qed.

(** The first note, looked up after the second has been removed. *)
Lemma remove_keeps_other_lookups_witness :
  let db := mkDB [mkRow 1 "a" "A"; mkRow 2 "b" "B"] 2 in
  let r := mkRequest MethodGet [("id", "2")] [] in
  let r' := mkRequest MethodGet [("id", "1")] [] in
  Paginated.detailPage (H := Drivers.strict) no_faults
    (fst (Paginated.removeNoteHandler (H := Drivers.strict) no_faults db r)) r'
  = mkResponse StatusOK Paginated.html None
      (Page "details" (Paginated.NoteData (Paginated.mkNote 1 "a" "A"))).
Proof.
  intros db r r'.
  assert (Hsep : forall row, In row (notes db) ->
            matches (H := Drivers.strict) (VText (Get "id" (URLQuery r'))) row
            = true ->
            matches (H := Drivers.strict) (VText (Get "id" (URLQuery r))) row
            = false).
  { intros row [<- | [<- | []]]; vm_compute; congruence. }
  destruct (remove_keeps_other_lookups Drivers.strict no_faults no_faults db
              r r' Hsep) as (_ & _ & Hdetail & _).
  rewrite Hdetail. reflexivity.
Defined.

(** The table that the create handlers leave. *)
Lemma create_table (D : Driver) (f : Faults) (db : DB) (r : Request) :
  (fst (Simple.createNoteHandler f db r) = db
   \/ exists t c,
        fst (Simple.createNoteHandler f db r)
        = mkDB (notes db ++ [mkRow (next_rowid db) t c]) (next_rowid db))
  /\ (fst (Paginated.createNoteHandler f db r) = db
      \/ exists t c,
           fst (Paginated.createNoteHandler f db r)
           = mkDB (notes db ++ [mkRow (next_rowid db) t c]) (next_rowid db)).
Proof.
  unfold Simple.createNoteHandler, Paginated.createNoteHandler.
  destruct (negb (String.eqb (Method r) MethodPost));
    destruct (String.eqb (FormValue r "title") ""
              || String.eqb (FormValue r "content") "");
    try (split; now left);
    (destruct (exec_error f) as [e|] eqn:Hf;
     [rewrite (Facts.Exec_fault f db _ _ e Hf); split; now left|]);
    rewrite (Facts.Exec_insert f db _ _ Hf); unfold insert;
    simpl as_text; cbv iota zeta;
    (destruct (next_rowid db <=? maxInt); [|split; now left]);
    destruct (LastInsertId f _) as [id [err|]]; simpl;
    split; try (now left); right; eexists; eexists; reflexivity.
Qed.

Lemma filter_after_insert (D : Driver) (v : Value) (rows : list Row)
  (new : Row) :
  matches v new = false ->
  filter (matches v) (rows ++ [new]) = filter (matches v) rows.
Proof.
  intros Hnew. rewrite filter_app. simpl. rewrite Hnew. apply app_nil_r.
Qed.

(** X11. Creating a note leaves the lookups of the notes that exist alone:
    for an id that the driver does not read as the id of the new note, the
    detail page and the edit form answer after the create as they did before
    it, whether the create stored a note or not. *)
Theorem create_keeps_other_lookups (D : Driver) (f f' : Faults) (db : DB)
  (r r' : Request) :
  numeric (Get "id" (URLQuery r')) <> Some (next_rowid db) ->
  (let db' := fst (Simple.createNoteHandler f db r) in
   Simple.noteDetailPage f' db' r' = Simple.noteDetailPage f' db r')
  /\ (let db' := fst (Paginated.createNoteHandler f db r) in
      Paginated.detailPage f' db' r' = Paginated.detailPage f' db r'
      /\ Paginated.updatePage f' db' r' = Paginated.updatePage f' db r').
Proof.
  intros Hother.
  assert (Hnew : forall t c,
            matches (VText (Get "id" (URLQuery r')))
              (mkRow (next_rowid db) t c) = false).
  { intros t c. unfold matches, id_eq. simpl row_id.
    destruct (numeric (Get "id" (URLQuery r'))) as [z|]; [|reflexivity].
    apply Z.eqb_neq. congruence. }
  destruct (create_table D f db r) as [Hs Hp].
  split; cbv zeta.
  - apply lookups_same_matches.
    destruct Hs as [-> | (t & c & ->)]; [reflexivity|].
    cbn [notes]. now apply filter_after_insert.
  - apply lookups_same_matches.
    destruct Hp as [-> | (t & c & ->)]; [reflexivity|].
    cbn [notes]. now apply filter_after_insert.
Qed.

(** The first note, looked up after a second has been created. *)
Lemma create_keeps_other_lookups_witness :
  let db := mkDB [mkRow 1 "a" "A"] 1 in
  let r := mkRequest MethodPost [] [("title", "t"); ("content", "c")] in
  let r' := mkRequest MethodGet [("id", "1")] [] in
  Paginated.detailPage (H := Drivers.strict) no_faults
    (fst (Paginated.createNoteHandler (H := Drivers.strict) no_faults db r)) r'
  = mkResponse StatusOK Paginated.html None
      (Page "details" (Paginated.NoteData (Paginated.mkNote 1 "a" "A"))).
Proof.
  intros db r r'.
  assert (Hother : numeric (Driver := Drivers.strict) (Get "id" (URLQuery r'))
                   <> Some (next_rowid db)) by (vm_compute; congruence).
  destruct (create_keeps_other_lookups Drivers.strict no_faults no_faults db
              r r' Hother) as [_ Hp].
  cbv zeta in Hp. rewrite (proj1 Hp). reflexivity.
Defined.

(** X12. An id in which the driver reads no integer finds nothing: the
    detail page and the edit form answer 404 and not 500, and the remove
    handler answers 404 and leaves the table as it was. *)
Theorem unreadable_id_finds_nothing (D : Driver) (f : Faults) (db : DB)
  (r : Request) :
  let id := Get "id" (URLQuery r) in
  id <> "" -> numeric id = None ->
  (query_error f = None ->
   Simple.noteDetailPage f db r = Error "Note not found" StatusNotFound
   /\ Paginated.detailPage f db r = Error "Note not found" StatusNotFound
   /\ Paginated.updatePage f db r = Error "Note not found" StatusNotFound)
  /\ (exec_error f = None ->
      Simple.removeNoteHandler f db r
      = (db, Error "Note not found" StatusNotFound)
      /\ Paginated.removeNoteHandler f db r
         = (db, Error "Note not found" StatusNotFound)).
Proof.
  intros id Hid Hnum.
  assert (Hno : forall row, In row (notes db) ->
                  matches (VText id) row = false).
  { intros row _. unfold matches, id_eq. now rewrite Hnum. }
  apply id_required in Hid.
  unfold Simple.noteDetailPage, Paginated.detailPage, Paginated.updatePage,
    Simple.removeNoteHandler, Paginated.removeNoteHandler.
  fold id. rewrite Hid. split.
  - intros Hq. rewrite (QueryRow_no_match D f db _ Hq Hno). repeat split.
  - intros Hf.
    rewrite (Facts.Exec_delete f db _ Hf), (delete_no_match D db _ Hno).
    unfold RowsAffected. destruct (rows_affected_error f); split; reflexivity.
Qed.

(** The id [abc] on a table of one note. *)
Lemma unreadable_id_finds_nothing_witness :
  let db := mkDB [mkRow 1 "a" "A"] 1 in
  let r := mkRequest MethodGet [("id", "abc")] [] in
  Paginated.removeNoteHandler (H := Drivers.strict) no_faults db r
  = (db, Error "Note not found" StatusNotFound).
Proof.
  intros db r.
  assert (Hid : Get "id" (URLQuery r) <> "") by discriminate.
  destruct (unreadable_id_finds_nothing Drivers.strict no_faults db r Hid
              eq_refl) as [_ Hrem].
  exact (proj2 (Hrem eq_refl)).
Defined.

(** *** The routes *)

Lemma Simple_serve_writes (D : Driver) (path : string) (f : Faults) (db : DB)
  (r : Request) :
  writes db (fst (Simple.serve path f db r)).
Proof.
  unfold Simple.serve.
  destruct (String.eqb path "/add"); [constructor|].
  destruct (String.eqb path "/create").
  { pose proof (Simple_create_writes D f db r) as Hw.
    destruct (Simple.createNoteHandler f db r). exact Hw. }
  destruct (String.eqb path "/note"); [constructor|].
  destruct (String.eqb path "/remove"); [|constructor].
  pose proof (Simple_remove_writes D f db r) as Hw.
  destruct (Simple.removeNoteHandler f db r). exact Hw.
Qed.

Lemma Paginated_serve_writes (D : Driver) (path : string) (f : Faults)
  (db : DB) (r : Request) :
  writes db (fst (Paginated.serve path f db r)).
Proof.
  unfold Paginated.serve.
  destruct (String.eqb path "/new-note"); [constructor|].
  destruct (String.eqb path "/update-note"); [constructor|].
  destruct (String.eqb path "/note"); [constructor|].
  destruct (String.eqb path "/back"); [constructor|].
  destruct (String.eqb path "/create").
  { pose proof (Paginated_create_writes D f db r) as Hw.
    destruct (Paginated.createNoteHandler f db r). exact Hw. }
  destruct (String.eqb path "/update").
  { pose proof (Paginated_update_writes D f db r) as Hw.
    destruct (Paginated.updateNoteHandler f db r). simpl in *. subst.
    constructor. }
  destruct (String.eqb path "/remove"); [|constructor].
  pose proof (Paginated_remove_writes D f db r) as Hw.
  destruct (Paginated.removeNoteHandler f db r). exact Hw.
Qed.

Lemma Simple_serve_all_reaches (D : Driver)
  (reqs : list (string * Faults * Request)) (db : DB) :
  reaches db (Simple.serve_all reqs db).
Proof.
  revert db. induction reqs as [|[[path f] r] reqs IH]; intros db; simpl.
  - constructor.
  - eapply reaches_on; [apply Simple_serve_writes|apply IH].
Qed.

Lemma Paginated_serve_all_reaches (D : Driver)
  (reqs : list (string * Faults * Request)) (db : DB) :
  reaches db (Paginated.serve_all reqs db).
Proof.
  revert db. induction reqs as [|[[path f] r] reqs IH]; intros db; simpl.
  - constructor.
  - eapply reaches_on; [apply Paginated_serve_writes|apply IH].
Qed.

(** One write keeps the ids below the counter, never lowers the counter, and
    gives a new row an id above it. *)
Lemma writes_bounded (D : Driver) (db db' : DB) :
  writes db db' -> bounded db ->
  bounded db'
  /\ seq db <= seq db'
  /\ (forall row, In row (notes db') ->
        In row (notes db) \/ seq db < row_id row).
Proof.
  unfold bounded. intros Hw Hb. destruct Hw as [|t c Ht Hc|v]; simpl.
  - split; [exact Hb|]. split; [lia|]. intros row Hin. now left.
  - assert (Hnext : seq db < next_rowid db) by (unfold next_rowid; lia).
    split; [|split; [lia|]].
    + apply Forall_app. split.
      * eapply Forall_impl; [|exact Hb]. simpl. intros row Hrow. lia.
      * constructor; [simpl; lia|constructor].
    + intros row Hin. apply in_app_or in Hin as [Hin | [<- | []]];
        [now left|right; exact Hnext].
  - split; [|split; [lia|]].
    + apply Forall_forall. intros x Hx. apply filter_In in Hx as [Hx _].
      revert x Hx. now apply Forall_forall.
    + intros row Hin. apply filter_In in Hin as [Hin _]. now left.
Qed.

Lemma reaches_invariants (D : Driver) (db db' : DB) :
  reaches db db' ->
  wf db -> bounded db -> Forall filled (notes db) ->
  wf db' /\ bounded db' /\ Forall filled (notes db')
  /\ seq db <= seq db'
  /\ (forall row, In row (notes db') ->
        In row (notes db) \/ seq db < row_id row).
Proof.
  induction 1 as [db|db db1 db2 Hw Hr IH]; intros Hwf Hb Hfill.
  - repeat split; try assumption; [lia|]. intros row Hin. now left.
  - destruct (writes_bounded D db db1 Hw Hb) as (Hb1 & Hseq & Hnew).
    destruct (IH (writes_wf D db db1 Hw Hwf) Hb1
                (writes_filled D db db1 Hw Hfill))
      as (Hwf2 & Hb2 & Hfill2 & Hseq2 & Hnew2).
    repeat split; try assumption; [lia|].
    intros row Hin. destruct (Hnew2 row Hin) as [Hin1 | Hlt]; [|right; lia].
    destruct (Hnew row Hin1) as [Hin0 | Hlt]; [now left|right; lia].
Qed.

Lemma empty_table_invariants (s0 : Z) :
  wf (mkDB [] s0) /\ bounded (mkDB [] s0) /\ Forall filled (notes (mkDB [] s0)).
Proof. repeat split; constructor. Qed.

(** X13. The whole server keeps the table in order. From an empty table,
    after any sequence of requests to any paths of either variant, under any
    failures, no two notes share an id, no note has an empty title or an
    empty content, and no id is above the counter from which the next id is
    taken. *)
Theorem server_keeps_table_in_order (D : Driver) (s0 : Z)
  (reqs : list (string * Faults * Request)) :
  (let db := Simple.serve_all reqs (mkDB [] s0) in
   wf db /\ Forall filled (notes db) /\ bounded db)
  /\ (let db := Paginated.serve_all reqs (mkDB [] s0) in
      wf db /\ Forall filled (notes db) /\ bounded db).
Proof.
  destruct (empty_table_invariants s0) as (Hwf & Hb & Hfill).
  split; cbv zeta.
  - destruct (reaches_invariants D _ _
                (Simple_serve_all_reaches D reqs (mkDB [] s0)) Hwf Hb Hfill)
      as (H1 & H2 & H3 & _). repeat split; assumption.
  - destruct (reaches_invariants D _ _
                (Paginated_serve_all_reaches D reqs (mkDB [] s0)) Hwf Hb Hfill)
      as (H1 & H2 & H3 & _). repeat split; assumption.
Qed.

(** X14. A note keeps its id and an id keeps its note. Between two moments
    of a run of the server from an empty table, a note of the later table
    was in the earlier table as it is now, or its id is above every id given
    until then; so an id of the earlier table can only name, later, the same
    title and content, and the id of a removed note is not given again. *)
Theorem ids_are_not_reused (D : Driver) (s0 : Z)
  (reqs1 reqs2 : list (string * Faults * Request)) :
  (let db1 := Simple.serve_all reqs1 (mkDB [] s0) in
   let db2 := Simple.serve_all reqs2 db1 in
   (forall row, In row (notes db1) -> row_id row <= seq db1)
   /\ (forall row, In row (notes db2) ->
         In row (notes db1) \/ seq db1 < row_id row)
   /\ (forall row row', In row (notes db1) -> In row' (notes db2) ->
         row_id row' = row_id row -> row' = row))
  /\ (let db1 := Paginated.serve_all reqs1 (mkDB [] s0) in
      let db2 := Paginated.serve_all reqs2 db1 in
      (forall row, In row (notes db1) -> row_id row <= seq db1)
      /\ (forall row, In row (notes db2) ->
            In row (notes db1) \/ seq db1 < row_id row)
      /\ (forall row row', In row (notes db1) -> In row' (notes db2) ->
            row_id row' = row_id row -> row' = row)).
Proof.
  destruct (empty_table_invariants s0) as (Hwf & Hb & Hfill).
  assert (Hsame : forall db1 db2,
            wf db1 -> bounded db1 ->
            (forall row, In row (notes db2) ->
               In row (notes db1) \/ seq db1 < row_id row) ->
            (forall row, In row (notes db1) -> row_id row <= seq db1)
            /\ (forall row, In row (notes db2) ->
                  In row (notes db1) \/ seq db1 < row_id row)
            /\ (forall row row', In row (notes db1) -> In row' (notes db2) ->
                  row_id row' = row_id row -> row' = row)).
  { intros db1 db2 Hwf1 Hb1 Hnew.
    assert (Hle : forall row, In row (notes db1) -> row_id row <= seq db1)
      by (now apply Forall_forall).
    repeat split; [exact Hle|exact Hnew|].
    intros row row' Hin Hin' Hid.
    destruct (Hnew row' Hin') as [Hin1 | Hlt];
      [|specialize (Hle row Hin); lia].
    unfold wf, ids in Hwf1. clear - Hwf1 Hin Hin1 Hid.
    induction (notes db1) as [|x l IH]; [destruct Hin|].
    simpl in Hwf1. inversion Hwf1 as [|? ? Hx Hl]; subst.
    destruct Hin as [-> | Hin], Hin1 as [-> | Hin1].
    - reflexivity.
    - exfalso. apply Hx. rewrite <- Hid. now apply in_map.
    - exfalso. apply Hx. rewrite Hid. now apply in_map.
    - now apply IH. }
  split; cbv zeta.
  - destruct (reaches_invariants D _ _
                (Simple_serve_all_reaches D reqs1 (mkDB [] s0)) Hwf Hb Hfill)
      as (Hwf1 & Hb1 & Hfill1 & _).
    destruct (reaches_invariants D _ _
                (Simple_serve_all_reaches D reqs2 _) Hwf1 Hb1 Hfill1)
      as (_ & _ & _ & _ & Hnew).
    now apply Hsame.
  - destruct (reaches_invariants D _ _
                (Paginated_serve_all_reaches D reqs1 (mkDB [] s0)) Hwf Hb
                Hfill) as (Hwf1 & Hb1 & Hfill1 & _).
    destruct (reaches_invariants D _ _
                (Paginated_serve_all_reaches D reqs2 _) Hwf1 Hb1 Hfill1)
      as (_ & _ & _ & _ & Hnew).
    now apply Hsame.
Qed.

(** Two notes created, the second removed, a third created: its id is 3. *)
Lemma ids_are_not_reused_witness :
  let post t := mkRequest MethodPost [] [("title", t); ("content", "c")] in
  let reqs1 := [("/create", no_faults, post "a");
                ("/create", no_faults, post "b")] in
  let reqs2 := [("/remove", no_faults, mkRequest MethodGet [("id", "2")] []);
                ("/create", no_faults, post "d")] in
  notes (Paginated.serve_all (H := Drivers.strict) reqs2
           (Paginated.serve_all (H := Drivers.strict) reqs1 (mkDB [] 0)))
  = [mkRow 1 "a" "c"; mkRow 3 "d" "c"]
  /\ forall row',
       In row' (notes (Paginated.serve_all (H := Drivers.strict) reqs2
                         (Paginated.serve_all (H := Drivers.strict) reqs1
                            (mkDB [] 0)))) ->
       row_id row' = 1 -> row' = mkRow 1 "a" "c".
Proof.
  intros post reqs1 reqs2. split; [reflexivity|].
  intros row' Hin Hid.
  destruct (ids_are_not_reused Drivers.strict 0 reqs1 reqs2) as [_ Hp].
  cbv zeta in Hp. destruct Hp as (_ & _ & Hsame).
  exact (Hsame (mkRow 1 "a" "c") row' (or_introl eq_refl) Hin Hid).
Defined.

Lemma writes_insert_incl (D : Driver) (f : Faults) (db : DB) (r : Request) :
  incl (notes db) (notes (fst (Simple.createNoteHandler f db r)))
  /\ incl (notes db) (notes (fst (Paginated.createNoteHandler f db r))).
Proof.
  destruct (create_table D f db r) as [Hs Hp].
  split.
  - destruct Hs as [-> | (t & c & ->)]; [apply incl_refl|].
    simpl. apply incl_appl, incl_refl.
  - destruct Hp as [-> | (t & c & ->)]; [apply incl_refl|].
    simpl. apply incl_appl, incl_refl.
Qed.

Lemma writes_delete_incl (D : Driver) (f : Faults) (db : DB) (r : Request) :
  incl (notes (fst (Simple.removeNoteHandler f db r))) (notes db)
  /\ incl (notes (fst (Paginated.removeNoteHandler f db r))) (notes db).
Proof.
  destruct (remove_table D f db r) as (Hs & Hp & _). rewrite Hs.
  assert (H : incl (notes (fst (Paginated.removeNoteHandler f db r)))
                (notes db)).
  { destruct Hp as [-> | ->]; [apply incl_refl|].
    simpl. intros x Hx. now apply filter_In in Hx. }
  split; exact H.
Qed.

Ltac route path :=
  let Hp := fresh "Hp" in
  destruct (String.eqb path _) eqn:Hp;
  [apply String.eqb_eq in Hp; subst path|apply String.eqb_neq in Hp].

(** X15. Of the routes that [main] registers, [/create] alone can add a
    note and [/remove] alone can take one away: a request to [/create] keeps
    every note there was, a request to [/remove] brings no note, and a
    request to any other path, registered or not, leaves the table as it
    was. A path that no pattern names is answered by the listing; in the
    simple variant that includes [/update] and [/back]. *)
Theorem routes_that_write (D : Driver) (path : string) (f : Faults) (db : DB)
  (r : Request) :
  (path <> "/create" -> path <> "/remove" ->
   fst (Simple.serve path f db r) = db
   /\ fst (Paginated.serve path f db r) = db)
  /\ (path = "/create" ->
      incl (notes db) (notes (fst (Simple.serve path f db r)))
      /\ incl (notes db) (notes (fst (Paginated.serve path f db r))))
  /\ (path = "/remove" ->
      incl (notes (fst (Simple.serve path f db r))) (notes db)
      /\ incl (notes (fst (Paginated.serve path f db r))) (notes db))
  /\ (~ In path ["/add"; "/create"; "/note"; "/remove"] ->
      Simple.serve path f db r = (db, Wrote (Simple.mainPage f db r)))
  /\ (~ In path ["/new-note"; "/update-note"; "/note"; "/back"; "/create";
                 "/update"; "/remove"] ->
      Paginated.serve path f db r = (db, Wrote (Paginated.mainPage f db r))).
Proof.
  repeat match goal with |- _ /\ _ => split end.
  - intros Hc Hr. unfold Simple.serve, Paginated.serve. split.
    + route path; [reflexivity|]. route path; [congruence|].
      route path; [reflexivity|]. route path; [congruence|reflexivity].
    + route path; [reflexivity|]. route path; [reflexivity|].
      route path; [reflexivity|]. route path; [reflexivity|].
      route path; [congruence|].
      route path; [|route path; [congruence|reflexivity]].
      pose proof (Paginated_update_writes D f db r) as Hu.
      destruct (Paginated.updateNoteHandler f db r). exact Hu.
  - intros ->. unfold Simple.serve, Paginated.serve. simpl.
    destruct (writes_insert_incl D f db r) as [Hs Hp].
    destruct (Simple.createNoteHandler f db r),
      (Paginated.createNoteHandler f db r). split; assumption.
  - intros ->. unfold Simple.serve, Paginated.serve. simpl.
    destruct (writes_delete_incl D f db r) as [Hs Hp].
    destruct (Simple.removeNoteHandler f db r),
      (Paginated.removeNoteHandler f db r). split; assumption.
  - intros Hno. unfold Simple.serve.
    repeat (route path; [exfalso; apply Hno; simpl; tauto|]). reflexivity.
  - intros Hno. unfold Paginated.serve.
    repeat (route path; [exfalso; apply Hno; simpl; tauto|]). reflexivity.
Qed.

(** The path [/update] in the simple variant. *)
Lemma routes_that_write_witness :
  let db := mkDB [mkRow 1 "a" "A"] 1 in
  let r := mkRequest MethodPost [("id", "1")] [] in
  Simple.serve (H := Drivers.strict) "/update" no_faults db r
  = (db, Wrote (Simple.mainPage (H := Drivers.strict) no_faults db r)).
Proof.
  intros db r.
  assert (Hno : ~ In "/update" ["/add"; "/create"; "/note"; "/remove"]).
  { simpl. intros [H | [H | [H | [H | []]]]]; discriminate. }
  exact (proj1 (proj2 (proj2 (proj2
           (routes_that_write Drivers.strict "/update" no_faults db r))))
           Hno).
Defined.

(** *** A new note in the listing *)

(** X16. A note that the create handler has stored comes last in the
    listing: the simple variant lists the notes there were and then the new
    one; in the paginated variant the new note is alone on the page whose
    number is the new count of notes, and no page follows. *)
Theorem created_note_is_listed_last (D : Driver) (f f' : Faults) (db : DB)
  (r r' : Request) :
  let title := FormValue r "title" in
  let content := FormValue r "content" in
  let id := next_rowid db in
  Method r = MethodPost -> title <> "" -> content <> "" ->
  exec_error f = None -> id <= maxInt ->
  query_error f' = None -> scan_error f' = None ->
  rows_error f' = None -> template_error f' = None ->
  Simple.mainPage f' (fst (Simple.createNoteHandler f db r)) r'
  = mkResponse StatusOK None None
      (Page "index"
         (Simple.NotesData
            (map Simple.note_of_row (notes db)
               ++ [Simple.mkNote (FormatInt id) title content])))
  /\ (Paginated.page_of r' = Z.of_nat (List.length (notes db)) + 1 ->
      exists data,
        Paginated.mainPage f' (fst (Paginated.createNoteHandler f db r)) r'
        = mkResponse StatusOK Paginated.html None
            (Page "index" (Paginated.IndexData data))
        /\ Paginated.Notes data = [Paginated.mkNote id title content]
        /\ Paginated.HasNext data = false).
Proof.
  intros title content id Hpost Ht Hc Hf Hroom Hq Hs Hr Htm.
  pose proof (nonempty_fields title content Ht Hc) as Hguard.
  assert (Hins : Exec f db "INSERT INTO notes (title, content) VALUES (?, ?)"
                   [VText title; VText content]
                 = (mkDB (notes db ++ [mkRow id title content]) id,
                    inl (mkResult id 1))).
  { rewrite (Facts.Exec_insert f db _ _ Hf). unfold insert. simpl.
    fold id. apply Z.leb_le in Hroom. now rewrite Hroom. }
  assert (Hs1 : fst (Simple.createNoteHandler f db r)
                = mkDB (notes db ++ [mkRow id title content]) id).
  { unfold Simple.createNoteHandler. fold title content.
    rewrite Hguard, Hins. destruct (LastInsertId f _) as [n [err|]];
      reflexivity. }
  assert (Hp1 : fst (Paginated.createNoteHandler f db r)
                = mkDB (notes db ++ [mkRow id title content]) id).
  { unfold Paginated.createNoteHandler. fold title content.
    rewrite Hpost, Hguard, Hins. simpl.
    destruct (LastInsertId f _) as [n [err|]]; reflexivity. }
  rewrite Hs1, Hp1. split.
  - unfold Simple.mainPage.
    rewrite (Query_all D f' _ Hq), (Simple_scan_rows f' _ [] Hs).
    unfold Rows_Err, Execute. rewrite Hr, Htm. cbn [notes app].
    rewrite map_app. reflexivity.
  - intros Hpage.
    pose proof (mainPage_served D f' (mkDB (notes db ++ [mkRow id title
                  content]) id) r' Hq Hs Hr Htm) as Hserved.
    cbv zeta in Hserved. rewrite Hpage in Hserved.
    change (Paginated.limit + 1) with 2 in Hserved.
    replace ((Z.of_nat (List.length (notes db)) + 1 - 1) * Paginated.limit)
      with (Z.of_nat (List.length (notes db))) in Hserved
      by (unfold Paginated.limit; lia).
    destruct (window_two (notes db ++ [mkRow id title content])
                (Z.of_nat (List.length (notes db)))) as [Hfirst Hnext];
      [lia|].
    cbn [notes] in Hserved.
    rewrite Nat2Z.id, nth_error_app2, Nat.sub_diag in Hfirst by lia.
    simpl nth_error in Hfirst.
    eexists. split; [exact Hserved|].
    cbn [Paginated.Notes Paginated.HasNext]. rewrite Hfirst.
    split; [reflexivity|].
    destruct (1 <? _)%nat; [|reflexivity].
    destruct Hnext as [Hlt _]. specialize (Hlt eq_refl).
    rewrite length_app in Hlt. simpl in Hlt. lia.
Qed.

(** A second note, listed after the first. *)
Lemma created_note_is_listed_last_witness :
  let db := mkDB [mkRow 1 "a" "A"] 1 in
  let r := mkRequest MethodPost [] [("title", "t"); ("content", "c")] in
  Simple.mainPage (H := Drivers.strict) no_faults
    (fst (Simple.createNoteHandler (H := Drivers.strict) no_faults db r))
    (mkRequest MethodGet [] [])
  = mkResponse StatusOK None None
      (Page "index"
         (Simple.NotesData [Simple.mkNote "1" "a" "A";
                            Simple.mkNote "2" "t" "c"])).
Proof.
  intros db r.
  assert (Ht : FormValue r "title" <> "") by discriminate.
  assert (Hc : FormValue r "content" <> "") by discriminate.
  assert (Hroom : next_rowid db <= maxInt) by (vm_compute; discriminate).
  exact (proj1 (created_note_is_listed_last Drivers.strict no_faults
                  no_faults db r (mkRequest MethodGet [] []) eq_refl Ht Hc
                  eq_refl Hroom eq_refl eq_refl eq_refl eq_refl)).
Defined.

(** *** Templates *)

Ltac page_name :=
  unfold Redirect, Execute; simpl;
  repeat match goal with
    | |- context [match ?x with _ => _ end] => destruct x; simpl
    end;
  intros name data [Heq | [msg Heq]]; inversion Heq; subst; simpl; tauto.

Lemma Simple_pages (D : Driver) (path : string) (f : Faults) (db : DB)
  (r : Request) (resp : Response Simple.PageData) :
  snd (Simple.serve path f db r) = Wrote resp ->
  forall name data,
    Written resp = Page name data
    \/ (exists msg, Written resp = Partial name data msg) ->
    In name ["index"; "details"].
Proof.
  unfold Simple.serve.
  destruct (String.eqb path "/add"); [discriminate|].
  destruct (String.eqb path "/create").
  { unfold Simple.createNoteHandler.
    destruct (_ || _); [intros [= <-]; page_name|].
    destruct (Exec f db _ _) as [db' [res|err]]; [|intros [= <-]; page_name].
    destruct (LastInsertId f res) as [id [err|]]; intros [= <-]; page_name. }
  destruct (String.eqb path "/note").
  { unfold Simple.noteDetailPage, Execute. intros [= <-]. page_name. }
  destruct (String.eqb path "/remove").
  { unfold Simple.removeNoteHandler.
    destruct (String.eqb _ ""); [intros [= <-]; page_name|].
    destruct (Exec f db _ _) as [db' [res|err]]; [|intros [= <-]; page_name].
    destruct (RowsAffected f res) as [n err].
    destruct (n =? 0); intros [= <-]; page_name. }
  unfold Simple.mainPage, Execute. intros [= <-]. page_name.
Qed.

Lemma Paginated_pages (D : Driver) (path : string) (f : Faults) (db : DB)
  (r : Request) (resp : Response Paginated.PageData) :
  snd (Paginated.serve path f db r) = Wrote resp ->
  forall name data,
    Written resp = Page name data
    \/ (exists msg, Written resp = Partial name data msg) ->
    In name ["index"; "details"; "update"].
Proof.
  unfold Paginated.serve.
  destruct (String.eqb path "/new-note"); [discriminate|].
  destruct (String.eqb path "/update-note").
  { unfold Paginated.updatePage, Execute. intros [= <-]. page_name. }
  destruct (String.eqb path "/note").
  { unfold Paginated.detailPage, Execute. intros [= <-]. page_name. }
  destruct (String.eqb path "/back"); [discriminate|].
  destruct (String.eqb path "/create").
  { unfold Paginated.createNoteHandler.
    destruct (negb _); [intros [= <-]; page_name|].
    destruct (_ || _); [intros [= <-]; page_name|].
    destruct (Exec f db _ _) as [db' [res|err]]; [|intros [= <-]; page_name].
    destruct (LastInsertId f res) as [id [err|]]; intros [= <-]; page_name. }
  destruct (String.eqb path "/update").
  { unfold Paginated.updateNoteHandler.
    destruct (String.eqb _ ""); [intros [= <-]; page_name|].
    destruct (Exec f db _ _) as [db' [res|err]]; [|intros [= <-]; page_name].
    destruct (RowsAffected f res) as [n err].
    destruct (n =? 0); intros [= <-]; page_name. }
  destruct (String.eqb path "/remove").
  { unfold Paginated.removeNoteHandler.
    destruct (String.eqb _ ""); [intros [= <-]; page_name|].
    destruct (Exec f db _ _) as [db' [res|err]]; [|intros [= <-]; page_name].
    destruct (RowsAffected f res) as [n err].
    destruct (n =? 0); intros [= <-]; page_name. }
  unfold Paginated.mainPage, Execute. intros [= <-].
  destruct (Query f db _ _) as [rows|err]; [|page_name].
  destruct (Paginated.scan_rows f rows []) as [notes|err]; [|page_name].
  destruct (_ >? _); page_name.
Qed.

(** What [initTemplates] returns when every file parses. *)
Lemma initTemplates_loaded (parse : string -> option string) :
  (forall m, Simple.initTemplates parse = inl m ->
     m = [("details", "templates/details.html");
          ("add", "templates/add.html");
          ("index", "templates/index.html")])
  /\ (forall m, Paginated.initTemplates parse = inl m ->
        m = [("update", "templates/update.html");
             ("details", "templates/details.html");
             ("add", "templates/add.html");
             ("index", "templates/index.html")]).
Proof.
  unfold Simple.initTemplates, Paginated.initTemplates. cbn [load].
  destruct (parse "templates/index.html");
    [split; intros; discriminate|].
  destruct (parse "templates/add.html");
    [split; intros; discriminate|].
  destruct (parse "templates/details.html");
    [split; intros; discriminate|].
  split; [intros m [= <-]; reflexivity|].
  destruct (parse "templates/update.html"); [intros; discriminate|].
  intros m [= <-]. reflexivity.
Qed.

(** The loop stops at the first file that does not parse. *)
Lemma load_stops (parse : string -> option string)
  (before after : list (string * string)) (name file err : string)
  (m : Templates) :
  Forall (fun t => parse (snd t) = None) before ->
  parse file = Some err ->
  load parse (before ++ (name, file) :: after) m
  = inr (String.append "ошибка загрузки "
           (String.append file (String.append ": " err))).
Proof.
  intros Hb Hf. revert m.
  induction Hb as [|[n f0] before Hok Hb IH]; intros m; simpl.
  - now rewrite Hf.
  - simpl in Hok. rewrite Hok. apply IH.
Qed.

Lemma load_all (parse : string -> option string)
  (table : list (string * string)) (m : Templates) :
  Forall (fun t => parse (snd t) = None) table ->
  load parse table m = inl (rev table ++ m).
Proof.
  intros Hall. revert m.
  induction Hall as [|[n f0] table Hok Hall IH]; intros m; simpl.
  - reflexivity.
  - simpl in Hok. rewrite Hok, IH. unfold set. now rewrite <- app_assoc.
Qed.

Lemma first_failure (parse : string -> option string)
  (table : list (string * string)) :
  Forall (fun t => parse (snd t) = None) table
  \/ exists before name file after err,
       table = before ++ (name, file) :: after
       /\ Forall (fun t => parse (snd t) = None) before
       /\ parse file = Some err.
Proof.
  induction table as [|[n f0] table IH]; [left; constructor|].
  destruct (parse f0) as [err|] eqn:Hf.
  - right. exists [], n, f0, table, err. repeat split; [constructor|exact Hf].
  - destruct IH as [Hall | (before & name & file & after & err & -> & Hb & He)].
    + left. constructor; assumption.
    + right. exists ((n, f0) :: before), name, file, after, err.
      repeat split; [constructor; assumption|exact He].
Qed.

(** X17. [initTemplates] loads all of its templates or none: when every
    file parses, the map holds each name of the table with its file and
    nothing else; otherwise the error names the first file of the table that
    does not parse, with the parser's text, and the files after it play no
    part: whatever a parser says of them, if it accepts the files before and
    fails on that file with that text, the outcome is the same error. *)
Theorem initTemplates_all_or_error (parse : string -> option string) :
  let simple :=
    [("index", "templates/index.html"); ("add", "templates/add.html");
     ("details", "templates/details.html")] in
  let paginated := simple ++ [("update", "templates/update.html")] in
  let outcome table
        (init : (string -> option string) -> Templates + string) :=
    match init parse with
    | inl m =>
        Forall (fun t => parse (snd t) = None) table
        /\ (forall name file, In (name, file) table ->
              lookup name m = Some file)
        /\ (forall name file, lookup name m = Some file ->
              In (name, file) table)
    | inr msg =>
        exists before name file after err,
          table = before ++ (name, file) :: after
          /\ Forall (fun t => parse (snd t) = None) before
          /\ parse file = Some err
          /\ msg = String.append "ошибка загрузки "
                     (String.append file (String.append ": " err))
          /\ (forall parse',
                Forall (fun t => parse' (snd t) = None) before ->
                parse' file = Some err ->
                init parse' = inr msg)
    end in
  outcome simple Simple.initTemplates
  /\ outcome paginated Paginated.initTemplates.
Proof.
  cbv zeta. unfold Simple.initTemplates, Paginated.initTemplates.
  cbn [app].
  assert (Hlook : forall (m : Templates) name file,
            lookup name m = Some file -> In (name, file) m).
  { induction m as [|[k v] m IH]; simpl; intros name file; [discriminate|].
    destruct (String.eqb k name) eqn:Hk.
    - apply String.eqb_eq in Hk. intros [= <-]. left. now subst.
    - intros Hin. right. now apply IH. }
  split.
  - destruct (first_failure parse
                [("index", "templates/index.html");
                 ("add", "templates/add.html");
                 ("details", "templates/details.html")])
      as [Hall | (before & name & file & after & err & Htab & Hb & He)].
    + rewrite (load_all parse _ [] Hall). cbn [rev app].
      split; [exact Hall|]. split.
      * intros name file [[= <- <-] | [[= <- <-] | [[= <- <-] | []]]];
          reflexivity.
      * intros name file Hl. apply Hlook in Hl. simpl in Hl. simpl. tauto.
    + rewrite Htab, (load_stops parse before after name file err [] Hb He).
      exists before, name, file, after, err.
      repeat split; try assumption.
      intros parse' Hb' He'. now apply load_stops.
  - destruct (first_failure parse
                [("index", "templates/index.html");
                 ("add", "templates/add.html");
                 ("details", "templates/details.html");
                 ("update", "templates/update.html")])
      as [Hall | (before & name & file & after & err & Htab & Hb & He)].
    + rewrite (load_all parse _ [] Hall). cbn [rev app].
      split; [exact Hall|]. split.
      * intros name file
          [[= <- <-] | [[= <- <-] | [[= <- <-] | [[= <- <-] | []]]]];
          reflexivity.
      * intros name file Hl. apply Hlook in Hl. simpl in Hl. simpl. tauto.
    + rewrite Htab, (load_stops parse before after name file err [] Hb He).
      exists before, name, file, after, err.
      repeat split; try assumption.
      intros parse' Hb' He'. now apply load_stops.
Qed.

(** A parser that fails on the second file only and one that fails on every
    file but the first: the same error. *)
Lemma initTemplates_all_or_error_witness :
  let parse file :=
    if String.eqb file "templates/add.html" then Some "no such file"
    else None in
  let parse' file :=
    if String.eqb file "templates/index.html" then None
    else Some "no such file" in
  Paginated.initTemplates parse
  = inr "ошибка загрузки templates/add.html: no such file"
  /\ Paginated.initTemplates parse' = Paginated.initTemplates parse.
Proof.
  intros parse parse'. split; [reflexivity|].
  pose proof (initTemplates_all_or_error parse) as [_ Hp].
  cbv zeta in Hp.
  change (Paginated.initTemplates parse)
    with (@inr Templates string
            "ошибка загрузки templates/add.html: no such file") in Hp.
  cbv iota beta in Hp.
  destruct Hp as (before & name & file & after & err & Htab & Hb & He & Hmsg
                  & Hindep).
  destruct before as [|t1 before]; simpl in Htab.
  { injection Htab as <- <- <-. discriminate He. }
  injection Htab as <- Htab.
  destruct before as [|t2 before]; simpl in Htab.
  - injection Htab as <- <- <-. injection He as <-.
    assert (Hb' : Forall (fun t => parse' (snd t) = None)
                    [("index", "templates/index.html")])
      by (constructor; [reflexivity|constructor]).
    rewrite (Hindep parse' Hb' eq_refl). reflexivity.
  - injection Htab as <- Htab. inversion Hb as [|? ? _ Hb2]; subst.
    inversion Hb2 as [|? ? Hbad _]; subst. discriminate Hbad.
Defined.

(** X18. Every page that a handler serves, whole or cut short by a failing
    template, comes from a template that [initTemplates] has loaded: whenever
    [initTemplates] succeeds, the name under which a route of the same
    variant executes a template is a key of the map, so no handler meets a
    missing template. *)
Theorem served_pages_are_loaded (D : Driver) (parse : string -> option string)
  (path : string) (f : Faults) (db : DB) (r : Request) :
  (forall m resp name data,
      Simple.initTemplates parse = inl m ->
      snd (Simple.serve path f db r) = Wrote resp ->
      Written resp = Page name data
      \/ (exists msg, Written resp = Partial name data msg) ->
      exists file, lookup name m = Some file)
  /\ (forall m resp name data,
         Paginated.initTemplates parse = inl m ->
         snd (Paginated.serve path f db r) = Wrote resp ->
         Written resp = Page name data
         \/ (exists msg, Written resp = Partial name data msg) ->
         exists file, lookup name m = Some file).
Proof.
  destruct (initTemplates_loaded parse) as [Hs Hp].
  split; intros m resp name data Hm Hserve Hpage.
  - rewrite (Hs m Hm).
    destruct (Simple_pages D path f db r resp Hserve name data Hpage)
      as [<- | [<- | []]]; eexists; reflexivity.
  - rewrite (Hp m Hm).
    destruct (Paginated_pages D path f db r resp Hserve name data Hpage)
      as [<- | [<- | [<- | []]]]; eexists; reflexivity.
Qed.

(** The edit form of a server whose templates all parse. *)
Lemma served_pages_are_loaded_witness :
  exists m file,
    Paginated.initTemplates (fun _ => None) = inl m
    /\ lookup "update" m = Some file.
Proof.
  destruct (served_pages_are_loaded Drivers.strict (fun _ => None)
              "/update-note" no_faults (mkDB [mkRow 1 "a" "A"] 1)
              (mkRequest MethodGet [("id", "1")] [])) as [_ Hp].
  destruct (Hp _ _ "update"
              (Paginated.NoteData (Paginated.mkNote 1 "a" "A")) eq_refl
              eq_refl (or_introl eq_refl)) as [file Hfile].
  eexists. exists file. split; [reflexivity|exact Hfile].
Defined.
